(** * TDMS batch converter: a shallow embedding of [batches.py]

    The development follows the script top to bottom: paths and discovery
    ([find_tdms_files]), output naming ([construct_destination_file_path]),
    the chunked CSV writer inside [convert_tdms_file], the batch loop
    ([batch_convert_tdms_files]) and the command-line entry point ([main]).

    Library collaborators (pathlib, numpy, pandas, nptdms) are modelled by
    small executable definitions that state the part of their behaviour the
    script relies on; each such definition says so in its comment. *)

From Stdlib Require Import String Ascii List Arith Lia Bool.
From stdpp Require Import base option list strings gmap.

Set Warnings "-register-all,-clear-no-such-hyp".

Open Scope string_scope.
Open Scope list_scope.

(** ** Exceptions *)

Inductive ExnKind :=
| FileNotFoundError
| NotADirectoryError
| IsADirectoryError
| KeyError
| ValueError
| OSError
| TdmsError.

(** A raised exception: its class and the text [str(e)] gives. *)
Record Exn := mkExn { exn_kind : ExnKind; exn_str : string }.

(** ** Strings *)

(** [s.split(sep)] for a one-character separator. *)
Fixpoint split (sep : ascii) (s : string) : list string :=
  match s with
  | EmptyString => [EmptyString]
  | String c s' =>
      if Ascii.eqb c sep then EmptyString :: split sep s'
      else match split sep s' with
           | [] => [String c EmptyString]
           | h :: t => String c h :: t
           end
  end.

(** [sep.join(parts)]. *)
Fixpoint join (sep : string) (parts : list string) : string :=
  match parts with
  | [] => ""
  | [p] => p
  | p :: rest => p +:+ sep +:+ join sep rest
  end.

(** [s.rfind(c)]: position of the last occurrence, [None] for Python's -1. *)
Fixpoint rfind (c : ascii) (s : string) : option nat :=
  match s with
  | EmptyString => None
  | String a s' =>
      match rfind c s' with
      | Some i => Some (S i)
      | None => if Ascii.eqb a c then Some 0 else None
      end
  end.

(** [s.endswith(suffix)]. *)
Definition endswith (s suffix : string) : bool :=
  let n := String.length s in
  let m := String.length suffix in
  Nat.leb m n && String.eqb (substring (n - m) m s) suffix.

(** ** Paths (pathlib, POSIX flavour)

    A path is the tuple [Path.parts]: an absolute path starts with its root
    component (["/"], or ["//"] for exactly two leading slashes). *)

Abbreviation Path := (list string).

Definition splitroot (s : string) : string :=
  match s with
  | String "/" (String "/" (String "/" _)) => "/"
  | String "/" (String "/" _) => "//"
  | String "/" _ => "/"
  | _ => ""
  end.

Definition is_root (part : string) : bool :=
  String.eqb part "/" || String.eqb part "//".

Definition keep_part (part : string) : bool :=
  negb (String.eqb part "") && negb (String.eqb part ".").

(** [Path(s)]: empty and ["."] components are dropped. *)
Definition PurePath (s : string) : Path :=
  (if String.eqb (splitroot s) "" then [] else [splitroot s])
    ++ List.filter keep_part (split "/" s).

Definition is_absolute (p : Path) : bool :=
  match p with
  | r :: _ => is_root r
  | [] => false
  end.

(** [p / s]: an absolute right operand replaces the left one. *)
Definition truediv (p : Path) (s : string) : Path :=
  let q := PurePath s in
  if is_absolute q then q else p ++ q.

(** [p.parent]. *)
Definition parent (p : Path) : Path :=
  match p with
  | [r] => if is_root r then p else []
  | _ => removelast p
  end.

(** [p.name]: the final component, empty for a bare root or [Path(".")]. *)
Definition name (p : Path) : string :=
  match p with
  | [] => ""
  | [r] => if is_root r then "" else r
  | _ => List.last p ""
  end.

(** [p.stem]: the name without its last suffix. *)
Definition stem (p : Path) : string :=
  let nm := name p in
  match rfind "." nm with
  | Some i =>
      if Nat.ltb 0 i && Nat.ltb i (String.length nm - 1) then substring 0 i nm else nm
  | None => nm
  end.

(** [str(p)]. *)
Definition str (p : Path) : string :=
  match p with
  | [] => "."
  | r :: rest => if is_root r then r +:+ join "/" rest else join "/" p
  end.

(** ** TDMS containers (nptdms)

    A channel is a named column of samples, a group a named list of
    channels, a file a list of groups in container order.  Reading a
    corrupt group or enumerating the groups of a corrupt file raises. *)

Record Channel := mkChannel { channel_name : string; channel_data : list Z }.

Record Group := mkGroup { group_name : string; group_channels : Exn + list Channel }.

Record TdmsFile := mkTdmsFile { tdms_groups : Exn + list Group }.

(** ** The directory tree that discovery walks

    A regular file carries what [TdmsFile.open] gives for it: the parsed
    container, or the exception raised for an unreadable file. *)

Inductive Node :=
| File (content : Exn + TdmsFile)
| Dir (entries : list (string * Node)).

Definition is_dir (n : Node) : bool :=
  match n with Dir _ => true | File _ => false end.

(** Resolution of a path below a node; used to build concrete worlds. *)
Fixpoint walk (n : Node) (p : Path) : option Node :=
  match p with
  | [] => Some n
  | c :: p' =>
      match n with
      | File _ => None
      | Dir entries =>
          (fix find (es : list (string * Node)) : option Node :=
             match es with
             | [] => None
             | (nm, child) :: es' =>
                 if String.eqb nm c then walk child p' else find es'
             end) entries
      end
  end.

(** ** Lines of output files *)

(** A table cell; a missing sample ([None]) stands for NaN. *)
Abbreviation Cell := (option Z).

(** A line of a CSV file: the header (column names), one data row, or
    the text of a line that a failing write left incomplete. *)
Inductive Line :=
| Header (cols : list string)
| Data (label : nat) (cells : list Cell)
| Torn (text : string).

(** What a write had put into the file when it raised: so many complete
    lines of its text and, possibly, the beginning of the next one. *)
Record Damage := mkDamage { complete_lines : nat; torn : option string }.

Definition cut (d : Damage) (lines : list Line) : list Line :=
  take (complete_lines d) lines
    ++ match torn d with
       | Some text => [Torn text]
       | None => []
       end.

(** The environment of a run: what the operating system answers for a
    path string ([os.stat]); which write operation, counted from the
    start of the run, fails with which exception; and how far a failing
    write got: [None] when it raised before it opened the file, otherwise
    what it had written after opening it. *)
Record World := mkWorld {
  stat : string -> option Node;
  fault : nat -> option Exn;
  damage : nat -> option Damage
}.

(** ** Discovery *)

(** The pattern ["*.tdms"] matched against one name component: fnmatch
    compiles it to [.*\.tdms] anchored at the end (case-sensitive on
    POSIX). *)
Definition fnmatch_tdms (nm : string) : bool := endswith nm ".tdms".

(** pathlib's recursive wildcard: the start directory, then every
    directory below it in pre-order, each with its entries. *)
Fixpoint iterate_directories (parent_path : Path) (n : Node)
  : list (Path * list (string * Node)) :=
  match n with
  | File _ => []
  | Dir entries =>
      (parent_path, entries) ::
      (fix sub (es : list (string * Node)) : list (Path * list (string * Node)) :=
         match es with
         | [] => []
         | (nm, child) :: es' =>
             iterate_directories (parent_path ++ [nm]) child ++ sub es'
         end) entries
  end.

(** The wildcard selector applied to one directory: every entry, file or
    directory, whose name matches. *)
Definition select_from (starting_point : Path) (entries : list (string * Node))
  : list Path :=
  List.map (fun e => starting_point ++ [fst e])
           (List.filter (fun e => fnmatch_tdms (fst e)) entries).

(** rglob yields a path once: [if p not in yielded]. *)
Fixpoint yield_once (yielded : list Path) (ps : list Path) : list Path :=
  match ps with
  | [] => []
  | p :: ps' =>
      if bool_decide (p ∈ yielded) then yield_once yielded ps'
      else p :: yield_once (p :: yielded) ps'
  end.

(** [root_path.rglob("*.tdms")] on the directory node found at the root. *)
Definition rglob_node (root_path : Path) (n : Node) : list Path :=
  yield_once []
    (List.flat_map (fun d => select_from (fst d) (snd d))
                   (iterate_directories root_path n)).

(** [p.exists()] and [p.is_dir()]: pathlib asks the operating system
    about [str(p)]. *)
Definition Path_exists (w : World) (p : Path) : bool :=
  match stat w (str p) with Some _ => true | None => false end.

Definition Path_is_dir (w : World) (p : Path) : bool :=
  match stat w (str p) with Some n => is_dir n | None => false end.

Definition rglob (w : World) (root_path : Path) : list Path :=
  match stat w (str root_path) with
  | Some n => rglob_node root_path n
  | None => []
  end.

Definition find_tdms_files (w : World) (root_directory : string)
  : Exn + list Path :=
  let root_path := PurePath root_directory in
  if negb (Path_exists w root_path) then
    inl (mkExn FileNotFoundError
               ("Directory does not exist: " +:+ root_directory))
  else if negb (Path_is_dir w root_path) then
    inl (mkExn NotADirectoryError
               ("Path is not a directory: " +:+ root_directory))
  else
    let tdms_files := rglob w root_path in
    inr tdms_files.

(** ** Output path construction *)

Definition construct_destination_file_path
    (source_file_path : Path) (group_name : string)
    (destination_file_format : string) : Path :=
  let destination_dir := parent source_file_path in
  let destination_file_name :=
    stem source_file_path +:+ "_" +:+ group_name +:+ "."
      +:+ destination_file_format in
  truediv destination_dir destination_file_name.

(** ** Tables (pandas)

    A data frame is its column names and its rows, each row with its index
    label; a missing sample ([None]) stands for NaN. *)

Record DataFrame := mkDataFrame {
  columns : list string;
  rows : list (nat * list Cell)
}.

(** [df.index]. *)
Definition index (df : DataFrame) : list nat := List.map fst (rows df).

(** [df.empty]: some axis has length zero. *)
Definition empty (df : DataFrame) : bool :=
  Nat.eqb (List.length (columns df)) 0 || Nat.eqb (List.length (rows df)) 0.

(** [group.as_dataframe()] with its default arguments: one column per
    channel over a fresh range index as long as the longest channel;
    shorter channels are padded with NaN. *)
Definition as_dataframe (g : Group) : Exn + DataFrame :=
  match group_channels g with
  | inl e => inl e
  | inr chans =>
      let n := List.fold_right Nat.max 0
                 (List.map (fun c => List.length (channel_data c)) chans) in
      inr {| columns := List.map channel_name chans;
             rows := List.map
                       (fun i => (i, List.map (fun c => nth_error (channel_data c) i) chans))
                       (seq 0 n) |}
  end.

(** [df.loc[labels]] for a list of labels: the rows carrying each label, in
    the order of the labels; a label absent from the index is a KeyError. *)
Fixpoint loc_rows (rs : list (nat * list Cell)) (labels : list nat)
  : Exn + list (nat * list Cell) :=
  match labels with
  | [] => inr []
  | l :: ls =>
      match List.filter (fun r => Nat.eqb (fst r) l) rs with
      | [] => inl (mkExn KeyError "label not in index")
      | found =>
          match loc_rows rs ls with
          | inl e => inl e
          | inr rest => inr (found ++ rest)
          end
      end
  end.

Definition loc (df : DataFrame) (labels : list nat) : Exn + DataFrame :=
  match loc_rows (rows df) labels with
  | inl e => inl e
  | inr rs => inr {| columns := columns df; rows := rs |}
  end.

(** ** Chunking (numpy) *)

(** [a.cumsum()]. *)
Fixpoint cumsum_from (acc : nat) (l : list nat) : list nat :=
  match l with
  | [] => []
  | x :: l' => (acc + x) :: cumsum_from (acc + x) l'
  end.

Definition cumsum (l : list nat) : list nat := cumsum_from 0 l.

(** [ary[st:end]] for non-negative bounds. *)
Definition slice {A} (ary : list A) (st en : nat) : list A :=
  drop st (take en ary).

(** [np.array_split(ary, Nsections)] for an integer section count. *)
Definition array_split {A} (ary : list A) (Nsections : nat)
  : Exn + list (list A) :=
  if Nat.leb Nsections 0 then
    inl (mkExn ValueError "number sections must be larger than 0.")
  else
    let Ntotal := List.length ary in
    let Neach_section := Ntotal / Nsections in
    let extras := Ntotal mod Nsections in
    let section_sizes :=
      [0] ++ replicate extras (Neach_section + 1)
          ++ replicate (Nsections - extras) Neach_section in
    let div_points := cumsum section_sizes in
    inr (List.map
           (fun i => slice ary (nth i div_points 0) (nth (i + 1) div_points 0))
           (seq 0 Nsections)).

(** ** Output files and the state of a run *)

(** What the script prints, one constructor per message, with
    the values it interpolates. *)
Inductive Verdict := AllConverted | SomeFailed (ok failed : nat) | NoneConverted.

Inductive Event :=
| EvProcessing (file_name : string)
| EvConvertingGroup (group_idx total : nat) (group : string)
| EvWarnEmpty (group : string)
| EvCreated (file_name : string)
| EvError (error_msg : string)
| EvBanner (root_directory : string)
| EvNoFilesFound
| EvFound (n : nat)
| EvConverting (file_idx total : nat) (tdms_file : Path)
| EvSuccess (n_groups : nat)
| EvFailed (error_msg : string)
| EvSummary (total_files successful failed total_csv : nat)
| EvVerdict (v : Verdict)
| EvFatal (msg : string)
| EvUsage
| EvNotExist (root_directory : string)
| EvNotDir (root_directory : string).

Record State := mkState {
  files : gmap Path (list Line);
  clock : nat;
  stdout : list Event
}.

(** ** A state and exception monad for the script's control flow *)

Definition M (S A : Type) : Type := S -> (Exn + A) * S.

Definition ret {S A} (a : A) : M S A := fun s => (inr a, s).

Definition raise {S A} (e : Exn) : M S A := fun s => (inl e, s).

Definition bind {S A B} (m : M S A) (k : A -> M S B) : M S B :=
  fun s =>
    match m s with
    | (inr a, s') => k a s'
    | (inl e, s') => (inl e, s')
    end.

Notation "'let*' x ':=' m 'in' k" := (bind m (fun x => k))
  (at level 10, x name, m at level 100, k at level 200).
Notation "m >> k" := (bind m (fun _ => k))
  (at level 90, right associativity).

(** A library call that returns or raises without touching the state. *)
Definition lift {S A} (r : Exn + A) : M S A :=
  match r with
  | inl e => raise e
  | inr a => ret a
  end.

(** A [for] loop whose body may raise. *)
Fixpoint for_each {S A} (xs : list A) (body : A -> M S unit) : M S unit :=
  match xs with
  | [] => ret tt
  | x :: xs' => body x >> for_each xs' body
  end.

(** [enumerate(xs, start)]. *)
Definition enumerate {A} (xs : list A) (start : nat) : list (nat * A) :=
  combine (seq start (List.length xs)) xs.

(** ** The script *)

Inductive Mode := ModeW | ModeA.

(** How the process ends: a normal return (exit status 0) or
    [sys.exit(code)]. *)
Inductive Outcome := Returned | SysExit (code : nat).

Definition exit_status (o : Outcome) : nat :=
  match o with
  | Returned => 0
  | SysExit code => code
  end.

(** The status the interpreter exits with: an uncaught exception ends the
    process with status 1. *)
Definition process_status (r : Exn + Outcome) : nat :=
  match r with
  | inr o => exit_status o
  | inl _ => 1
  end.

Record Counters := mkCounters {
  successful_conversions : nat;
  failed_conversions : nat;
  total_csv_files_created : nat
}.

(** The text [to_csv] produces for a frame, line by line. *)
Definition csv_lines (df : DataFrame) (header : bool) : list Line :=
  (if header then [Header (columns df)] else [])
    ++ List.map (fun r => Data (fst r) (snd r)) (rows df).

Section Script.

Variable w : World.

Definition print (e : Event) : M State unit :=
  fun s => (inr tt, mkState (files s) (clock s) (stdout s ++ [e])).

(** [TdmsFile.open(path)]. *)
Definition TdmsFile_open (path : string) : M State TdmsFile :=
  match stat w path with
  | None => raise (mkExn FileNotFoundError ("No such file or directory: " +:+ path))
  | Some (Dir _) => raise (mkExn IsADirectoryError ("Is a directory: " +:+ path))
  | Some (File content) => lift content
  end.

(** [df.to_csv(path, header=..., mode=..., sep=",", index=True)].  Each
    call is one write operation of the run; the world decides whether it
    fails.  Mode "w" replaces the file, mode "a" extends it (creating it
    when absent).  A failing call that raises before it opens the file
    leaves the file as it was; one that raises later has opened it, which
    in mode "w" creates or empties it, and leaves behind the part of its
    text it had written. *)
Definition to_csv (df : DataFrame) (path : Path) (header : bool) (mode : Mode)
  : M State unit :=
  fun s =>
    let old := match mode with
               | ModeW => []
               | ModeA => default [] (files s !! path)
               end in
    match fault w (clock s) with
    | Some e =>
        (inl e,
         mkState (match damage w (clock s) with
                  | None => files s
                  | Some d => <[path := old ++ cut d (csv_lines df header)]> (files s)
                  end)
                 (S (clock s)) (stdout s))
    | None =>
        (inr tt, mkState (<[path := old ++ csv_lines df header]> (files s))
                         (S (clock s)) (stdout s))
    end.

(** The chunk loop of [convert_tdms_file] (lines 120 to 137): its body,
    and the loop over [enumerate(segments)]. *)
Definition write_chunk (group_df : DataFrame) (csv_file_path : Path)
    (entry : nat * list nat) : M State unit :=
  let count := fst entry in
  let chunk := snd entry in
  if Nat.eqb count 0 then
    let* chunk_df := lift (loc group_df chunk) in
    to_csv chunk_df csv_file_path true ModeW
  else
    let* chunk_df := lift (loc group_df chunk) in
    to_csv chunk_df csv_file_path false ModeA.

Definition write_segments (group_df : DataFrame) (csv_file_path : Path)
    (segments : list (list nat)) : M State unit :=
  for_each (enumerate segments 0) (write_chunk group_df csv_file_path).

(** The body of the [try] block runs on the state of the run paired with
    the local list [created_files], which the handler reads. *)
Abbreviation Frame := (State * list string)%type.

Definition io {A} (m : M State A) : M Frame A :=
  fun fr =>
    match m (fst fr) with
    | (r, s') => (r, (s', snd fr))
    end.

Definition append_created (p : string) : M Frame unit :=
  fun fr => (inr tt, (fst fr, snd fr ++ [p])).

Definition get_created : M Frame (list string) :=
  fun fr => (inr (snd fr), fr).

(** One iteration of the loop over groups (lines 102 to 140). *)
Definition convert_group (source_file_path : Path) (n_groups : nat)
    (entry : nat * Group) : M Frame unit :=
  let group_idx := fst entry in
  let group := snd entry in
  io (print (EvConvertingGroup group_idx n_groups (group_name group))) >>
  let* group_df := lift (as_dataframe group) in
  if empty group_df then
    io (print (EvWarnEmpty (group_name group)))
  else
    let csv_file_path :=
      construct_destination_file_path source_file_path (group_name group) "csv" in
    let* segments := lift (array_split (index group_df) 101) in
    io (write_segments group_df csv_file_path segments) >>
    append_created (str csv_file_path) >>
    io (print (EvCreated (name csv_file_path))).

Definition convert_body (source_file_path : Path)
  : M Frame (bool * string * list string) :=
  io (print (EvProcessing (name source_file_path))) >>
  let* tdms_file := io (TdmsFile_open (str source_file_path)) in
  let* groups := lift (tdms_groups tdms_file) in
  match groups with
  | [] => ret (false, "No groups found in TDMS file", [])
  | _ =>
      for_each (enumerate groups 1)
               (convert_group source_file_path (List.length groups)) >>
      let* created_files := get_created in
      ret (true, "", created_files)
  end.

Definition convert_tdms_file (source_file_path : Path) (s : State)
  : (bool * string * list string) * State :=
  match convert_body source_file_path (s, []) with
  | (inr result, fr) => (result, fst fr)
  | (inl e, fr) =>
      let error_msg :=
        "Error converting " +:+ name source_file_path +:+ ": " +:+ exn_str e in
      ((false, error_msg, snd fr), snd (print (EvError error_msg) (fst fr)))
  end.

(** The loop over discovered files (lines 178 to 191). *)
Fixpoint batch_loop (total_files : nat) (entries : list (nat * Path))
    (c : Counters) : M State Counters :=
  match entries with
  | [] => ret c
  | (file_idx, tdms_file) :: rest =>
      print (EvConverting file_idx total_files tdms_file) >>
      let* result := (fun s => let (r, s') := convert_tdms_file tdms_file s in (inr r, s')) in
      let '(success, error_msg, created_files) := result in
      if success : bool then
        print (EvSuccess (List.length created_files)) >>
        batch_loop total_files rest
          (mkCounters (successful_conversions c + 1) (failed_conversions c)
             (total_csv_files_created c + List.length created_files))
      else
        print (EvFailed error_msg) >>
        batch_loop total_files rest
          (mkCounters (successful_conversions c) (failed_conversions c + 1)
             (total_csv_files_created c))
  end.

Definition verdict (c : Counters) : Verdict :=
  if Nat.eqb (failed_conversions c) 0 then AllConverted
  else if Nat.ltb 0 (successful_conversions c) then
    SomeFailed (successful_conversions c) (failed_conversions c)
  else NoneConverted.

(** [try: ... except Exception as e: handler]. *)
Definition try_except {S A} (body : M S A) (handler : Exn -> M S A) : M S A :=
  fun s =>
    match body s with
    | (inr a, s') => (inr a, s')
    | (inl e, s') => handler e s'
    end.

Definition batch_convert_tdms_files (root_directory : string)
  : M State Outcome :=
  print (EvBanner root_directory) >>
  try_except
    (let* tdms_files := lift (find_tdms_files w root_directory) in
     match tdms_files with
     | [] => print EvNoFilesFound >> ret Returned
     | _ =>
         print (EvFound (List.length tdms_files)) >>
         let total_files := List.length tdms_files in
         let* c := batch_loop total_files (enumerate tdms_files 1)
                     (mkCounters 0 0 0) in
         print (EvSummary total_files (successful_conversions c)
                  (failed_conversions c) (total_csv_files_created c)) >>
         print (EvVerdict (verdict c)) >>
         ret Returned
     end)
    (fun e => print (EvFatal (exn_str e)) >> ret (SysExit 1)).

(** [os.path.exists] and [os.path.isdir] ask the operating system about
    the string as given. *)
Definition os_path_exists (p : string) : bool :=
  match stat w p with Some _ => true | None => false end.

Definition os_path_isdir (p : string) : bool :=
  match stat w p with Some n => is_dir n | None => false end.

Definition main (argv : list string) : M State Outcome :=
  if negb (Nat.eqb (List.length argv) 2) then
    print EvUsage >> ret (SysExit 1)
  else
    let root_directory := nth 1 argv "" in
    if negb (os_path_exists root_directory) then
      print (EvNotExist root_directory) >> ret (SysExit 1)
    else if negb (os_path_isdir root_directory) then
      print (EvNotDir root_directory) >> ret (SysExit 1)
    else batch_convert_tdms_files root_directory.

End Script.

(** ** Reference notions used in the statements *)

(** Cutting a list into consecutive pieces of the given sizes. *)
Fixpoint chunks {A} (sizes : list nat) (l : list A) : list (list A) :=
  match sizes with
  | [] => []
  | k :: ks => take k l :: chunks ks (drop k l)
  end.

(** The section sizes [array_split] computes: [extras] sections one longer
    than the remaining ones. *)
Definition section_sizes (Ntotal Nsections : nat) : list nat :=
  replicate (Ntotal mod Nsections) (Ntotal / Nsections + 1)
    ++ replicate (Nsections - Ntotal mod Nsections) (Ntotal / Nsections).


(** The data lines of a list of rows. *)
Definition data_lines (rs : list (nat * list Cell)) : list Line :=
  List.map (fun r => Data (fst r) (snd r)) rs.

(** The file a single unchunked write with a header gives. *)
Definition full_csv (df : DataFrame) : list Line :=
  Header (columns df) :: data_lines (rows df).

Definition is_header (ln : Line) : bool :=
  match ln with
  | Header _ => true
  | Data _ _ => false
  | Torn _ => false
  end.

(** The first failing write operation among [n] operations starting at
    operation [t]: its offset and the exception it raises. *)
Fixpoint first_fault (w : World) (t n : nat) : option (nat * Exn) :=
  match n with
  | 0 => None
  | S n' =>
      match fault w t with
      | Some e => Some (0, e)
      | None =>
          match first_fault w (S t) n' with
          | Some (j, e) => Some (S j, e)
          | None => None
          end
      end
  end.

(** The file system after the first [j] chunks of a table were written to
    [path]: untouched when [j = 0], else the header and the rows of those
    chunks. *)
Definition written (path : Path) (cols : list string)
    (cs : list (list (nat * list Cell))) (j : nat)
    (fs : gmap Path (list Line)) : gmap Path (list Line) :=
  match j with
  | 0 => fs
  | S _ => <[path := Header cols :: data_lines (concat (take j cs))]> fs
  end.

(** The rows of a table cut the way [array_split] cuts its index into 101
    sections. *)
Definition row_chunks (df : DataFrame) : list (list (nat * list Cell)) :=
  chunks (section_sizes (List.length (rows df)) 101) (rows df).

(** The output file of a group. *)
Definition output_path (source_file_path : Path) (g : Group) : Path :=
  construct_destination_file_path source_file_path (group_name g) "csv".

(** The number of rows of a group's table: the length of its longest
    channel. *)
Definition row_count (g : Group) : nat :=
  match group_channels g with
  | inl _ => 0
  | inr chans =>
      List.fold_right Nat.max 0
        (List.map (fun c => List.length (channel_data c)) chans)
  end.

Definition has_rows (g : Group) : bool := Nat.ltb 0 (row_count g).

Arguments has_rows : simpl never.

Arguments output_path : simpl never.

(** The complete CSV file of a group. *)
Definition group_csv (g : Group) : list Line :=
  match as_dataframe g with
  | inr df => full_csv df
  | inl _ => []
  end.

(** The output files once every group of [done] has been converted. *)
Fixpoint files_after (source_file_path : Path) (done : list Group)
    (fs : gmap Path (list Line)) : gmap Path (list Line) :=
  match done with
  | [] => fs
  | g :: rest =>
      files_after source_file_path rest
        (if has_rows g
         then <[output_path source_file_path g := group_csv g]> fs
         else fs)
  end.

(** What the loop over groups prints for a group it finishes. *)
Definition group_events (source_file_path : Path) (n_groups : nat)
    (entry : nat * Group) : list Event :=
  let g := snd entry in
  [EvConvertingGroup (fst entry) n_groups (group_name g);
   if has_rows g then EvCreated (name (output_path source_file_path g))
   else EvWarnEmpty (group_name g)].

(** The file left for a group by [j >= 1] completed writes of its 101:
    the header and the rows of the first [j] segments. *)
Definition partial_csv (g : Group) (j : nat) : list Line :=
  match as_dataframe g with
  | inr df => Header (columns df) :: data_lines (concat (take j (row_chunks df)))
  | inl _ => []
  end.

(** The text the write of segment [j] of a group puts out: the header
    comes with segment 0 only. *)
Definition segment_lines (g : Group) (j : nat) : list Line :=
  match as_dataframe g with
  | inr df =>
      csv_lines (mkDataFrame (columns df) (nth j (row_chunks df) []))
                (Nat.eqb j 0)
  | inl _ => []
  end.

(** The output file of a group whose write of segment [j], operation [t]
    of the run, raised: [None] when the file is as the run found it (the
    first write raised before opening it); otherwise what the [j]
    completed writes left, followed by what the failing write had
    written. *)
Definition partial_file (w : World) (t : nat) (g : Group) (j : nat)
  : option (list Line) :=
  match damage w t with
  | None =>
      match j with
      | 0 => None
      | S _ => Some (partial_csv g j)
      end
  | Some d =>
      Some (match j with
            | 0 => []
            | S _ => partial_csv g j
            end ++ cut d (segment_lines g j))
  end.

(** The files after the conversion of group [g] stopped at its write of
    segment [j], operation [t]; a group that could not be materialized
    has written nothing. *)
Definition partial_write (w : World) (t : nat) (source_file_path : Path)
    (g : Group) (j : nat) (fs : gmap Path (list Line)) : gmap Path (list Line) :=
  match as_dataframe g with
  | inl _ => fs
  | inr _ =>
      match partial_file w t g j with
      | None => fs
      | Some content => <[output_path source_file_path g := content]> fs
      end
  end.

(** The files after write [j] of a chunk loop over the row chunks [cs],
    operation [t] of the run, raised. *)
Definition failed_write (w : World) (t : nat) (path : Path)
    (cols : list string) (cs : list (list (nat * list Cell))) (j : nat)
    (fs : gmap Path (list Line)) : gmap Path (list Line) :=
  match damage w t with
  | None => written path cols cs j fs
  | Some d =>
      <[path := match j with
                | 0 => []
                | S _ => Header cols :: data_lines (concat (take j cs))
                end
                ++ cut d (csv_lines (mkDataFrame cols (nth j cs []))
                            (Nat.eqb j 0))]> fs
  end.

Definition materializes (g : Group) : Prop := exists df, as_dataframe g = inr df.

(** The created-files entries of the groups of [gs] that have rows, and
    their number. *)
Definition outputs (source_file_path : Path) (gs : list Group) : list string :=
  List.map (fun g => str (output_path source_file_path g)) (List.filter has_rows gs).

Definition n_written (gs : list Group) : nat :=
  List.length (List.filter has_rows gs).

(** What a run of the loop over [groups] leaves behind, started in state
    [s] with [created] in [created_files]: when it finishes, and when it
    raises [e] in a group [g] after [j] of that group's writes. *)
Definition loop_post (w : World) (source_file_path : Path) (n_groups : nat)
    (groups : list Group) (start : nat) (s : State)
    (created : list string) (r : Exn + unit) (s' : State)
    (created' : list string) : Prop :=
  match r with
  | inr _ =>
      Forall materializes groups
      /\ created' = created ++ outputs source_file_path groups
      /\ files s' = files_after source_file_path groups (files s)
      /\ clock s' = clock s + 101 * n_written groups
      /\ stdout s'
         = stdout s ++ List.flat_map (group_events source_file_path n_groups)
                         (combine (seq start (List.length groups)) groups)
  | inl e =>
      exists done g rest j,
        groups = done ++ g :: rest
        /\ Forall materializes done
        /\ created' = created ++ outputs source_file_path done
        /\ files s'
           = partial_write w (clock s + 101 * n_written done + j)
               source_file_path g j
               (files_after source_file_path done (files s))
        /\ j < 101
        /\ ((as_dataframe g = inl e /\ j = 0
             /\ clock s' = clock s + 101 * n_written done)
            \/ (has_rows g = true
                /\ fault w (clock s + 101 * n_written done + j) = Some e
                /\ clock s' = clock s + 101 * n_written done + j + 1))
  end.

(** What opening a source file and enumerating its groups gives. *)
Definition read_groups (w : World) (source_file_path : Path) : Exn + list Group :=
  match stat w (str source_file_path) with
  | None =>
      inl (mkExn FileNotFoundError
             ("No such file or directory: " +:+ str source_file_path))
  | Some (Dir _) =>
      inl (mkExn IsADirectoryError ("Is a directory: " +:+ str source_file_path))
  | Some (File (inl e)) => inl e
  | Some (File (inr tdms_file)) => tdms_groups tdms_file
  end.

(** The state after one more message was printed. *)
Definition printed (e : Event) (s : State) : State :=
  mkState (files s) (clock s) (stdout s ++ [e]).

(** The message [convert_tdms_file] builds in its exception handler. *)
Definition error_message (source_file_path : Path) (e : Exn) : string :=
  "Error converting " +:+ name source_file_path +:+ ": " +:+ exn_str e.

(** [reaches n rel m]: following the names of [rel] from node [n] leads to
    node [m]. *)
Inductive reaches : Node -> Path -> Node -> Prop :=
| reaches_here n : reaches n [] n
| reaches_step entries nm child rel m :
    (nm, child) ∈ entries -> reaches child rel m ->
    reaches (Dir entries) (nm :: rel) m.

(** The ConversionResults of a batch, in order: each file is converted in
    the state its predecessors left. *)
Fixpoint conversion_results (w : World) (total_files : nat)
    (entries : list (nat * Path)) (s : State)
  : list (bool * string * list string) :=
  match entries with
  | [] => []
  | (file_idx, tdms_file) :: rest =>
      let run := convert_tdms_file w tdms_file
                   (printed (EvConverting file_idx total_files tdms_file) s) in
      let success := fst (fst (fst run)) in
      let error_msg := snd (fst (fst run)) in
      let created_files := snd (fst run) in
      fst run
      :: conversion_results w total_files rest
           (printed (if success then EvSuccess (List.length created_files)
                     else EvFailed error_msg) (snd run))
  end.

Definition succeeded (r : bool * string * list string) : bool := fst (fst r).

Definition created (r : bool * string * list string) : list string := snd r.

(** The counters after folding a list of results into [c]. *)
Definition fold_results (c : Counters)
    (results : list (bool * string * list string)) : Counters :=
  mkCounters
    (successful_conversions c + List.length (List.filter succeeded results))
    (failed_conversions c
     + List.length (List.filter (fun r => negb (succeeded r)) results))
    (total_csv_files_created c
     + sum_list_with (fun r => List.length (created r))
         (List.filter succeeded results)).

(** Whether a string contains the path separator. *)
Fixpoint has_sep (s : string) : bool :=
  match s with
  | EmptyString => false
  | String c s' => Ascii.eqb c "/" || has_sep s'
  end.

(** ** A concrete run

    The scenario of the specification: below [/data], [a/x.tdms] holds the
    groups "Voltage" (250 rows) and "Empty" (no rows), and [b/y.tdms] is
    unreadable. *)

Module Scenario.

Definition ramp (n : nat) : list Z := List.map Z.of_nat (seq 0 n).

Definition voltage : Group :=
  mkGroup "Voltage" (inr [mkChannel "u" (ramp 250); mkChannel "i" (ramp 3)]).

Definition empty_group : Group := mkGroup "Empty" (inr [mkChannel "e" []]).

Definition short : Group := mkGroup "Short" (inr [mkChannel "t" (ramp 3)]).

Definition corrupt_group : Group :=
  mkGroup "Broken" (inl (mkExn TdmsError "truncated segment")).

Definition x_tdms : TdmsFile := mkTdmsFile (inr [voltage; empty_group]).

Definition tree : Node :=
  Dir [("a", Dir [("x.tdms", File (inr x_tdms))]);
       ("b", Dir [("y.tdms", File (inl (mkExn TdmsError "not a TDMS file")))])].

Definition os (root : Node) (path : string) : option Node :=
  match PurePath path with
  | "/" :: "data" :: p => walk root p
  | _ => None
  end.

Definition no_fault : nat -> option Exn := fun _ => None.

Definition no_damage : nat -> option Damage := fun _ => None.

Definition world : World := mkWorld (os tree) no_fault no_damage.

Definition start : State := mkState ∅ 0 [].

Definition x_path : Path := ["/"; "data"; "a"; "x.tdms"].


Definition short_df : DataFrame :=
  match as_dataframe short with
  | inr df => df
  | inl _ => mkDataFrame [] []
  end.

(** A container without groups, next to [x.tdms]. *)
Definition hollow_tree : Node :=
  Dir [("a", Dir [("x.tdms", File (inr (mkTdmsFile (inr []))))])].

Definition hollow_world : World := mkWorld (os hollow_tree) no_fault no_damage.





(** The second group is unreadable. *)
Definition corrupt_tree : Node :=
  Dir [("a", Dir [("x.tdms",
                   File (inr (mkTdmsFile (inr [short; corrupt_group; voltage]))))])].

Definition corrupt_world : World := mkWorld (os corrupt_tree) no_fault no_damage.

(** A directory whose name ends in ".tdms", next to [x.tdms]. *)
Definition tree_with_directory : Node :=
  Dir [("a", Dir [("x.tdms", File (inr x_tdms)); ("raw.tdms", Dir [])])].

Definition directory_world : World := mkWorld (os tree_with_directory) no_fault no_damage.

End Scenario.

(** ** Further reference notions *)

(** The last group of [gs] with rows whose output path is [q], if any. *)
Fixpoint last_writer (source_file_path : Path) (gs : list Group) (q : Path)
  : option Group :=
  match gs with
  | [] => None
  | g :: rest =>
      match last_writer source_file_path rest q with
      | Some g' => Some g'
      | None =>
          if has_rows g && bool_decide (output_path source_file_path g = q)
          then Some g else None
      end
  end.

(** The groups a conversion completes when no write fails: those before
    the first group that cannot be materialized; and the exception that
    group raises, if there is one. *)
Fixpoint completed (gs : list Group) : list Group :=
  match gs with
  | [] => []
  | g :: rest =>
      match as_dataframe g with
      | inl _ => []
      | inr _ => g :: completed rest
      end
  end.

Fixpoint first_corrupt (gs : list Group) : option Exn :=
  match gs with
  | [] => None
  | g :: rest =>
      match as_dataframe g with
      | inl e => Some e
      | inr _ => first_corrupt rest
      end
  end.

(** The progress line the batch prints before it converts a file. *)
Definition is_converting (e : Event) : bool :=
  match e with
  | EvConverting _ _ _ => true
  | _ => false
  end.

(** [s'] extends the output of [s] by messages other than progress lines
    of the batch. *)
Definition quiet_step (s s' : State) : Prop :=
  exists evs, stdout s' = stdout s ++ evs
              /\ Forall (fun e => is_converting e = false) evs.

(** A computation whose every run is such a step, on the state a frame
    projects to. *)
Definition Quiet {S A} (proj : S -> State) (m : M S A) : Prop :=
  forall s, quiet_step (proj s) (proj (snd (m s))).

(** Further concrete runs. *)
Module Cases.

(** Two groups whose names differ by a doubled separator. *)
Definition first_ab : Group :=
  mkGroup "a/b" (inr [mkChannel "t" (Scenario.ramp 3)]).

Definition second_ab : Group :=
  mkGroup "a//b" (inr [mkChannel "u" (Scenario.ramp 2)]).





(** A container whose groups all lack rows. *)
Definition no_channels : Group := mkGroup "Meta" (inr []).

Definition all_empty_tree : Node :=
  Dir [("a", Dir [("x.tdms",
                   File (inr (mkTdmsFile
                                (inr [Scenario.empty_group; no_channels]))))])].

Definition all_empty_world : World :=
  mkWorld (Scenario.os all_empty_tree) Scenario.no_fault Scenario.no_damage.

End Cases.

(** * Properties of the chunking *)

Section ArraySplit.

Context {A : Type}.
Implicit Types (l : list A) (sizes : list nat).

Lemma nth_cumsum_shift a k ks i :
  nth (S i) (a :: cumsum_from a (k :: ks)) 0
  = nth i ((a + k) :: cumsum_from (a + k) ks) 0.
Proof. reflexivity. Qed.

Lemma slices_chunks sizes : forall l a,
  List.map (fun i => slice l (nth i (a :: cumsum_from a sizes) 0)
                             (nth (i + 1) (a :: cumsum_from a sizes) 0))
           (seq 0 (List.length sizes))
  = chunks sizes (drop a l).
Proof.
  induction sizes as [|k ks IH]; intros l a; [reflexivity|].
  cbn [List.length seq List.map chunks].
  f_equal.
  - cbn. unfold slice. by rewrite take_drop_commute.
  - rewrite <- seq_shift, List.map_map, drop_drop, <- IH.
    apply List.map_ext. intros i.
    replace (S i + 1) with (S (i + 1)) by lia.
    by rewrite !nth_cumsum_shift.
Qed.

Lemma chunks_length sizes l : List.length (chunks sizes l) = List.length sizes.
Proof. revert l. induction sizes; intros; cbn; [done|]. by rewrite IHsizes. Qed.

Lemma chunks_concat sizes : forall l,
  concat (chunks sizes l) = take (sum_list sizes) l.
Proof.
  induction sizes as [|k ks IH]; intros l; cbn.
  - by rewrite take_0.
  - by rewrite IH, take_take_drop.
Qed.

Lemma chunks_lengths sizes : forall l,
  sum_list sizes <= List.length l ->
  List.map (@List.length A) (chunks sizes l) = sizes.
Proof.
  induction sizes as [|k ks IH]; intros l Hle; cbn in *; [done|].
  rewrite length_take_le by lia.
  rewrite IH; [done|]. rewrite length_drop. lia.
Qed.

Lemma chunks_take sizes : forall l j,
  concat (take j (chunks sizes l)) = take (sum_list (take j sizes)) l.
Proof.
  induction sizes as [|k ks IH]; intros l j; cbn.
  - by rewrite !take_nil, take_0.
  - destruct j as [|j]; cbn; [by rewrite take_0|].
    by rewrite IH, take_take_drop.
Qed.

Lemma section_sizes_length n m :
  0 < m -> List.length (section_sizes n m) = m.
Proof.
  intros Hm. unfold section_sizes. rewrite length_app, !length_replicate.
  pose proof (Nat.mod_upper_bound n m). lia.
Qed.

Lemma section_sizes_sum n m : 0 < m -> sum_list (section_sizes n m) = n.
Proof.
  intros Hm. unfold section_sizes.
  rewrite sum_list_with_app, !sum_list_replicate.
  pose proof (Nat.mod_upper_bound n m ltac:(lia)) as Hlt.
  pose proof (Nat.div_mod_eq n m) as Hdm.
  nia.
Qed.

Lemma array_split_chunks l n :
  0 < n -> array_split l n = inr (chunks (section_sizes (List.length l) n) l).
Proof.
  intros Hn. unfold array_split.
  destruct (Nat.leb_spec n 0) as [|_]; [lia|].
  f_equal. cbn [app].
  pose proof (slices_chunks (section_sizes (List.length l) n) l 0) as H.
  rewrite section_sizes_length in H by done. rewrite drop_0 in H. exact H.
Qed.

Lemma array_split_zero l : exists e, array_split l 0 = inl e.
Proof. eexists. reflexivity. Qed.

End ArraySplit.

Lemma chunks_fmap {A B} (f : A -> B) sizes : forall l,
  chunks sizes (List.map f l) = List.map (List.map f) (chunks sizes l).
Proof.
  induction sizes as [|k ks IH]; intros l; cbn; [done|].
  change (List.map f) with (fmap (M:=list) f).
  rewrite <- fmap_take, <- fmap_drop.
  change (fmap (M:=list) f) with (List.map f). by rewrite IH.
Qed.

(** * Properties of the table operations *)

Lemma filter_label_unique (rs : list (nat * list Cell)) r :
  NoDup (List.map fst rs) -> r ∈ rs ->
  List.filter (fun r' => Nat.eqb (fst r') (fst r)) rs = [r].
Proof.
  induction rs as [|a rs IH]; intros Hnd Hin; [by apply elem_of_nil in Hin|].
  cbn in Hnd. apply NoDup_cons in Hnd as [Hna Hnd].
  assert (Hnone : forall l, l ∉ List.map fst rs ->
            List.filter (fun r' => Nat.eqb (fst r') l) rs = []).
  { clear. intros l. induction rs as [|b rs IH]; intros Hl; [done|].
    cbn in *. apply not_elem_of_cons in Hl as [Hne Hl].
    destruct (Nat.eqb_spec (fst b) l); [congruence|]. by apply IH. }
  apply elem_of_cons in Hin as [->|Hin]; cbn.
  - rewrite Nat.eqb_refl. f_equal. by apply Hnone.
  - destruct (Nat.eqb_spec (fst a) (fst r)) as [Heq|_].
    + exfalso. apply Hna. rewrite Heq.
      change (List.map fst rs) with (fst <$> rs).
      apply list_elem_of_fmap. by exists r.
    + by apply IH.
Qed.

Lemma loc_rows_sub (rs rs' : list (nat * list Cell)) :
  NoDup (List.map fst rs) -> rs' ⊆ rs ->
  loc_rows rs (List.map fst rs') = inr rs'.
Proof.
  intros Hnd. induction rs' as [|r rs' IH]; intros Hsub; [done|].
  cbn. rewrite filter_label_unique by (try done; apply Hsub; left).
  rewrite IH; [done|]. intros x Hx. apply Hsub. by right.
Qed.

Lemma loc_sub (df : DataFrame) rs' :
  NoDup (index df) -> rs' ⊆ rows df ->
  loc df (List.map fst rs') = inr (mkDataFrame (columns df) rs').
Proof. intros Hnd Hsub. unfold loc. by rewrite loc_rows_sub. Qed.

Lemma as_dataframe_index g df :
  as_dataframe g = inr df -> index df = seq 0 (List.length (rows df)).
Proof.
  unfold as_dataframe. destruct (group_channels g) as [e|chans]; [done|].
  intros [= <-]. unfold index. cbn.
  rewrite List.map_map, List.length_map, List.length_seq. cbn.
  by rewrite List.map_id.
Qed.

Lemma as_dataframe_NoDup g df : as_dataframe g = inr df -> NoDup (index df).
Proof.
  intros H. rewrite (as_dataframe_index _ _ H). apply NoDup_ListNoDup, List.seq_NoDup.
Qed.

Lemma chunks_sub {A} sizes : forall (l : list A),
  Forall (fun c => c ⊆ l) (chunks sizes l).
Proof.
  induction sizes as [|k ks IH]; intros l; cbn; constructor.
  - apply subseteq_take.
  - eapply Forall_impl; [apply IH|]. cbn. intros c Hc.
    etrans; [exact Hc|]. apply subseteq_drop.
Qed.

Lemma first_fault_none w t n :
  (forall j, j < n -> fault w (t + j) = None) -> first_fault w t n = None.
Proof.
  revert t. induction n as [|n IH]; intros t H; [done|].
  cbn. rewrite <- (Nat.add_0_r t) at 1. rewrite H by lia.
  rewrite IH; [done|]. intros j Hj. replace (S t + j) with (t + S j) by lia.
  apply H. lia.
Qed.

Lemma first_fault_some w t n j e :
  first_fault w t n = Some (j, e) ->
  j < n /\ fault w (t + j) = Some e /\ forall i, i < j -> fault w (t + i) = None.
Proof.
  revert t j. induction n as [|n IH]; intros t j; [done|].
  cbn. destruct (fault w t) as [e'|] eqn:Hf.
  - intros [= <- <-]. rewrite Nat.add_0_r. split; [lia|]. split; [done|]. lia.
  - destruct (first_fault w (S t) n) as [[j' e']|] eqn:Hff; [|done].
    intros [= <- <-]. destruct (IH _ _ Hff) as (Hlt & Hfault & Hbefore).
    split; [lia|]. split; [by replace (t + S j') with (S t + j') by lia|].
    intros [|i] Hi; [by rewrite Nat.add_0_r|].
    replace (t + S i) with (S t + i) by lia. apply Hbefore. lia.
Qed.

(** * The chunk loop *)

Section Writer.

Variable w : World.
Variable df : DataFrame.
Variable path : Path.
Hypothesis index_NoDup : NoDup (index df).

Lemma data_lines_app rs1 rs2 :
  data_lines (rs1 ++ rs2) = data_lines rs1 ++ data_lines rs2.
Proof. unfold data_lines. apply List.map_app. Qed.

(** Appending chunks [cs] (counts from [k >= 1]) to an existing file. *)
Lemma append_loop cs : forall k s old,
  1 <= k -> Forall (fun c => c ⊆ rows df) cs ->
  files s !! path = Some old ->
  for_each (combine (seq k (List.length cs)) (List.map (List.map fst) cs))
           (write_chunk w df path) s
  = match first_fault w (clock s) (List.length cs) with
    | None =>
        (inr tt, mkState (<[path := old ++ data_lines (concat cs)]> (files s))
                         (clock s + List.length cs) (stdout s))
    | Some (j, e) =>
        (inl e,
         mkState (<[path := (old ++ data_lines (concat (take j cs)))
                            ++ match damage w (clock s + j) with
                               | None => []
                               | Some d =>
                                   cut d (csv_lines
                                            (mkDataFrame (columns df) (nth j cs []))
                                            false)
                               end]> (files s))
                 (clock s + j + 1) (stdout s))
    end.
Proof.
  induction cs as [|c cs IH]; intros k s old Hk Hsub Hold.
  - cbn. rewrite app_nil_r, insert_id by done. rewrite Nat.add_0_r.
    by destruct s.
  - apply Forall_cons in Hsub as [Hc Hsub].
    cbn [List.length seq List.map combine for_each first_fault].
    unfold bind at 1. unfold write_chunk at 1. cbn [fst snd].
    destruct (Nat.eqb_spec k 0) as [|_]; [lia|].
    rewrite loc_sub by done. unfold bind at 1, lift, ret, to_csv.
    cbn [columns rows]. rewrite Hold. cbn [default].
    destruct (fault w (clock s)) as [e|] eqn:Hf.
    + cbn [take concat data_lines List.map nth]. rewrite !Nat.add_0_r, app_nil_r.
      replace (clock s + 1) with (S (clock s)) by lia.
      destruct (damage w (clock s)); [done|].
      by rewrite app_nil_r, insert_id.
    + cbn [csv_lines app].
      erewrite IH; [|lia|done|cbn; apply lookup_insert_eq].
      cbn [files clock stdout]. fold (data_lines c).
      destruct (first_fault w (S (clock s)) (List.length cs)) as [[j e]|].
      * rewrite insert_insert_eq. cbn [take concat nth].
        rewrite data_lines_app, !app_assoc.
        replace (S (clock s) + j) with (clock s + S j) by lia.
        by replace (clock s + S j + 1) with (S (clock s) + j + 1) by lia.
      * rewrite insert_insert_eq. cbn [concat].
        rewrite data_lines_app, app_assoc.
        by replace (clock s + S (List.length cs)) with (S (clock s) + List.length cs) by lia.
Qed.

(** The whole loop over row chunks [cs]: how far it gets and what it
    leaves in the file. *)
Lemma write_segments_run cs s :
  Forall (fun c => c ⊆ rows df) cs ->
  write_segments w df path (List.map (List.map fst) cs) s
  = match first_fault w (clock s) (List.length cs) with
    | None =>
        (inr tt, mkState (written path (columns df) cs (List.length cs) (files s))
                         (clock s + List.length cs) (stdout s))
    | Some (j, e) =>
        (inl e, mkState (failed_write w (clock s + j) path (columns df) cs j
                           (files s))
                        (clock s + j + 1) (stdout s))
    end.
Proof.
  intros Hsub. unfold write_segments, enumerate. rewrite List.length_map.
  destruct cs as [|c cs].
  - cbn. rewrite Nat.add_0_r. by destruct s.
  - apply Forall_cons in Hsub as [Hc Hsub].
    cbn [List.length seq List.map combine for_each first_fault].
    unfold bind at 1. unfold write_chunk at 1. cbn [fst snd Nat.eqb].
    rewrite loc_sub by done. unfold bind at 1, lift, ret, to_csv.
    cbn [columns rows].
    destruct (fault w (clock s)) as [e|] eqn:Hf.
    + unfold failed_write. cbn [written nth Nat.eqb]. rewrite !Nat.add_0_r.
      by replace (clock s + 1) with (S (clock s)) by lia.
    + cbn [csv_lines app].
      erewrite append_loop; [|lia|done|cbn; apply lookup_insert_eq].
      cbn [files clock stdout]. fold (data_lines c).
      destruct (first_fault w (S (clock s)) (List.length cs)) as [[j e]|].
      * rewrite insert_insert_eq. unfold failed_write.
        cbn [written take concat nth Nat.eqb].
        rewrite data_lines_app.
        replace (S (clock s) + j) with (clock s + S j) by lia.
        replace (clock s + S j + 1) with (S (clock s) + j + 1) by lia.
        destruct (damage w (clock s + S j)); [done|].
        by rewrite app_nil_r.
      * rewrite insert_insert_eq. cbn [written take concat].
        rewrite take_ge by done. rewrite data_lines_app.
        by replace (clock s + S (List.length cs)) with (S (clock s) + List.length cs) by lia.
Qed.

End Writer.

(** * The chunked writer on a group table *)

Section GroupTable.

Variable w : World.
Variable df : DataFrame.

Lemma segments_row_chunks :
  array_split (index df) 101 = inr (List.map (List.map fst) (row_chunks df)).
Proof.
  rewrite array_split_chunks by lia. unfold row_chunks, index.
  by rewrite List.length_map, chunks_fmap.
Qed.

Lemma row_chunks_length : List.length (row_chunks df) = 101.
Proof. unfold row_chunks. rewrite chunks_length. apply section_sizes_length. lia. Qed.

Lemma row_chunks_sub : Forall (fun c => c ⊆ rows df) (row_chunks df).
Proof. apply chunks_sub. Qed.

Lemma row_chunks_concat : concat (row_chunks df) = rows df.
Proof.
  unfold row_chunks. rewrite chunks_concat, section_sizes_sum by lia.
  by apply take_ge.
Qed.



End GroupTable.

Lemma full_csv_one_header df :
  List.length (List.filter is_header (full_csv df)) = 1.
Proof.
  unfold full_csv, data_lines. cbn. f_equal.
  induction (rows df) as [|r rs IH]; [done|]. by cbn.
Qed.

Lemma written_lookup_ne (path : Path) (cols : list string)
    (cs : list (list (nat * list Cell))) (j : nat)
    (fs : gmap Path (list Line)) (q : Path) :
  q <> path -> (written path cols cs j fs) !! q = fs !! q.
Proof. intros Hq. destruct j; cbn; [done|]. by rewrite lookup_insert_ne. Qed.



(** * One group *)

Lemma as_dataframe_rows g df :
  as_dataframe g = inr df -> List.length (rows df) = row_count g.
Proof.
  unfold as_dataframe, row_count.
  destruct (group_channels g) as [e|chans]; [done|]. intros [= <-]. cbn.
  by rewrite List.length_map, List.length_seq.
Qed.

(** A materialized table is empty exactly when the group has no row: a
    table with rows has at least one column. *)
Lemma as_dataframe_empty g df :
  as_dataframe g = inr df -> empty df = negb (has_rows g).
Proof.
  intros Hg. pose proof (as_dataframe_rows _ _ Hg) as Hrows.
  unfold empty, has_rows. rewrite Hrows.
  revert Hg Hrows. unfold as_dataframe, row_count.
  destruct (group_channels g) as [e|chans]; [done|]. intros [= <-] _. cbn.
  destruct chans as [|c chans]; [done|]. cbn.
  by destruct (Nat.max _ _).
Qed.

Lemma has_rows_materialized g :
  has_rows g = true -> exists df, as_dataframe g = inr df /\ empty df = false.
Proof.
  unfold has_rows, row_count, as_dataframe.
  destruct (group_channels g) as [e|chans] eqn:Hc; [done|]. intros H.
  eexists. split; [reflexivity|].
  erewrite as_dataframe_empty by (unfold as_dataframe; by rewrite Hc).
  unfold has_rows, row_count. by rewrite Hc, H.
Qed.

Section Group.

Variable w : World.
Variable source_file_path : Path.
Variable n_groups : nat.

Lemma convert_group_corrupt idx g e s created :
  as_dataframe g = inl e ->
  convert_group w source_file_path n_groups (idx, g) (s, created)
  = (inl e,
     (mkState (files s) (clock s)
        (stdout s ++ [EvConvertingGroup idx n_groups (group_name g)]),
      created)).
Proof. intros Hg. unfold convert_group, bind, io. cbn. by rewrite Hg. Qed.

Lemma convert_group_empty idx g s created :
  (exists df, as_dataframe g = inr df) -> has_rows g = false ->
  convert_group w source_file_path n_groups (idx, g) (s, created)
  = (inr tt,
     (mkState (files s) (clock s)
        (stdout s ++ group_events source_file_path n_groups (idx, g)),
      created)).
Proof.
  intros [df Hg] Hrows. pose proof (as_dataframe_empty _ _ Hg) as Hempty.
  rewrite Hrows in Hempty. unfold convert_group, group_events.
  cbn [fst snd]. rewrite Hrows. unfold bind, io, print. cbn [fst snd].
  rewrite Hg. cbn [lift ret]. rewrite Hempty. cbn [negb fst snd files clock stdout].
  by rewrite <- app_assoc.
Qed.

Lemma convert_group_rows idx g s created :
  has_rows g = true ->
  convert_group w source_file_path n_groups (idx, g) (s, created)
  = match first_fault w (clock s) 101 with
    | None =>
        (inr tt,
         (mkState (<[output_path source_file_path g := group_csv g]> (files s))
            (clock s + 101)
            (stdout s ++ group_events source_file_path n_groups (idx, g)),
          created ++ [str (output_path source_file_path g)]))
    | Some (j, e) =>
        (inl e,
         (mkState (partial_write w (clock s + j) source_file_path g j (files s))
            (clock s + j + 1)
            (stdout s ++ [EvConvertingGroup idx n_groups (group_name g)]),
          created))
    end.
Proof.
  intros Hrows. destruct (has_rows_materialized _ Hrows) as (df & Hg & Hempty).
  unfold partial_write, group_csv, group_events. cbn [fst snd].
  rewrite Hg, Hrows.
  unfold convert_group, bind at 1, io at 1. cbn [fst snd print].
  unfold bind at 1. rewrite Hg. cbn [lift ret]. rewrite Hempty.
  unfold bind at 1. rewrite segments_row_chunks. cbn [lift ret].
  unfold bind at 1, io at 1. cbn [fst snd].
  rewrite write_segments_run
    by (try apply row_chunks_sub; by eapply as_dataframe_NoDup).
  rewrite row_chunks_length. cbn [clock files stdout].
  destruct (first_fault w (clock s) 101) as [[j e]|].
  { unfold failed_write, partial_file, segment_lines, partial_csv.
    rewrite Hg. by destruct (damage w (clock s + j)), j. }
  unfold bind, append_created, io, print. cbn [fst snd files clock stdout].
  rewrite <- app_assoc. cbn [app written].
  rewrite take_ge by (rewrite row_chunks_length; lia).
  by rewrite row_chunks_concat.
Qed.

End Group.

(** * The loop over groups *)

Section GroupLoop.

Variable w : World.
Variable source_file_path : Path.
Variable n_groups : nat.

Lemma group_loop_run groups : forall start s created r s' created',
  for_each (combine (seq start (List.length groups)) groups)
           (convert_group w source_file_path n_groups) (s, created)
  = (r, (s', created')) ->
  loop_post w source_file_path n_groups groups start s created r s' created'.
Proof.
  induction groups as [|g groups IH]; intros start s created r s' created'.
  - cbn. intros [= <- <- <-]. unfold loop_post, outputs, n_written. cbn.
    rewrite !app_nil_r. repeat split; try done; lia.
  - cbn [List.length seq combine for_each]. unfold bind at 1.
    destruct (as_dataframe g) as [e|df] eqn:Hg.
    { rewrite (convert_group_corrupt _ _ _ _ _ e) by done.
      intros [= <- <- <-]. exists [], g, groups, 0.
      unfold partial_write, outputs, n_written. cbn. rewrite Hg, app_nil_r.
      repeat split; try done; try lia. left. repeat split; try done; lia. }
    destruct (has_rows g) eqn:Hrows.
    + rewrite convert_group_rows by done.
      destruct (first_fault w (clock s) 101) as [[j e]|] eqn:Hff.
      * intros [= <- <- <-]. exists [], g, groups, j.
        destruct (first_fault_some _ _ _ _ _ Hff) as (Hj & Hf & _).
        unfold outputs, n_written. cbn [List.filter List.map List.length files_after
                                        files clock app].
        rewrite app_nil_r. replace (clock s + 101 * 0 + j) with (clock s + j) by lia.
        repeat split; try done. right.
        repeat split; try done; lia.
      * intros Hrun. apply IH in Hrun. revert Hrun.
        unfold loop_post, outputs, n_written.
        destruct r as [e|[]]; cbn [files clock stdout].
        -- intros (done & g' & rest & j & -> & Hmat & -> & -> & Hj & Hcase).
           exists (g :: done), g', rest, j. cbn [List.filter files_after].
           rewrite Hrows. cbn [List.map List.length].
           replace (clock s + 101 * S (List.length (List.filter has_rows done)) + j)
             with (clock s + 101 + 101 * List.length (List.filter has_rows done) + j)
             by lia.
           split; [done|]. split; [constructor; [by exists df|done]|].
           split; [by rewrite <- app_assoc|]. split; [done|]. split; [done|].
           destruct Hcase as [(? & ? & ->)|(? & Hf & ->)]; [left|right];
             repeat split; try done; lia.
        -- intros (Hmat & -> & -> & -> & ->).
           cbn [List.filter files_after List.flat_map]. rewrite Hrows.
           cbn [List.map List.length].
           split; [constructor; [by exists df|done]|].
           split; [by rewrite <- app_assoc|]. split; [done|].
           split; [lia|]. by rewrite <- app_assoc.
    + rewrite convert_group_empty by eauto.
      intros Hrun. apply IH in Hrun. revert Hrun.
      unfold loop_post, outputs, n_written.
      destruct r as [e|[]]; cbn [files clock stdout].
      * intros (done & g' & rest & j & -> & Hmat & -> & -> & Hj & Hcase).
        exists (g :: done), g', rest, j. cbn [List.filter files_after].
        rewrite Hrows.
        split; [done|]. split; [constructor; [by exists df|done]|]. done.
      * intros (Hmat & -> & -> & -> & ->).
        cbn [List.filter files_after List.flat_map]. rewrite Hrows.
        split; [constructor; [by exists df|done]|].
        split; [done|]. split; [done|]. split; [done|].
        by rewrite <- app_assoc.
Qed.

End GroupLoop.

(** * Single-file conversion *)

Section FilesAfter.

Variable source_file_path : Path.




Variable w : World.


Lemma partial_write_corrupt (t : nat) (g : Group) (j : nat)
    (fs : gmap Path (list Line)) e :
  as_dataframe g = inl e -> partial_write w t source_file_path g j fs = fs.
Proof. intros Hg. unfold partial_write. by rewrite Hg. Qed.



Lemma files_after_lookup (gs : list Group) :
  forall (fs : gmap Path (list Line)) (q : Path),
    (files_after source_file_path gs fs) !! q
    = match last_writer source_file_path gs q with
      | Some g => Some (group_csv g)
      | None => fs !! q
      end.
Proof.
  induction gs as [|g gs IH]; intros fs q; [done|].
  cbn [files_after last_writer]. rewrite IH.
  destruct (last_writer source_file_path gs q); [done|].
  destruct (has_rows g); cbn [andb]; [|done].
  case_bool_decide as Hq.
  - rewrite <- Hq. apply lookup_insert_eq.
  - by rewrite lookup_insert_ne.
Qed.


Lemma files_after_idempotent (gs : list Group) (fs : gmap Path (list Line)) :
  files_after source_file_path gs (files_after source_file_path gs fs)
  = files_after source_file_path gs fs.
Proof.
  apply map_eq. intros q. rewrite !files_after_lookup.
  by destruct (last_writer source_file_path gs q).
Qed.



End FilesAfter.



Section Convert.

Variable w : World.
Variable source_file_path : Path.

Lemma convert_body_run s created :
  convert_body w source_file_path (s, created)
  = let s1 := printed (EvProcessing (name source_file_path)) s in
    match read_groups w source_file_path with
    | inl e => (inl e, (s1, created))
    | inr [] => (inr (false, "No groups found in TDMS file", []), (s1, created))
    | inr groups =>
        match for_each (enumerate groups 1)
                (convert_group w source_file_path (List.length groups))
                (s1, created) with
        | (inl e, fr) => (inl e, fr)
        | (inr _, fr) => (inr (true, "", snd fr), fr)
        end
    end.
Proof.
  unfold convert_body, read_groups, TdmsFile_open.
  unfold bind at 1, io at 1, print at 1. cbn [fst snd].
  fold (printed (EvProcessing (name source_file_path)) s).
  unfold bind at 1, io at 1. cbn [fst snd].
  destruct (stat w (str source_file_path)) as [[[e|tdms]|entries]|]; try done.
  cbn [lift ret]. unfold bind at 1.
  destruct (tdms_groups tdms) as [e|groups]; [done|]. cbn [lift ret].
  destruct groups as [|g groups]; [done|].
  unfold bind at 1.
  destruct (for_each _ _ _) as [[e|[]] fr]; [done|].
  by destruct fr.
Qed.

Lemma convert_tdms_file_run s :
  convert_tdms_file w source_file_path s
  = let s1 := printed (EvProcessing (name source_file_path)) s in
    match read_groups w source_file_path with
    | inl e =>
        ((false, error_message source_file_path e, []),
         printed (EvError (error_message source_file_path e)) s1)
    | inr [] => ((false, "No groups found in TDMS file", []), s1)
    | inr groups =>
        match for_each (enumerate groups 1)
                (convert_group w source_file_path (List.length groups))
                (s1, []) with
        | (inl e, fr) =>
            ((false, error_message source_file_path e, snd fr),
             printed (EvError (error_message source_file_path e)) (fst fr))
        | (inr _, fr) => ((true, "", snd fr), fst fr)
        end
    end.
Proof.
  unfold convert_tdms_file. rewrite convert_body_run. cbn zeta.
  destruct (read_groups w source_file_path) as [e|[|g groups]]; try done.
  by destruct (for_each _ _ _) as [[e|[]] fr].
Qed.

End Convert.

(** * Output paths

    Distinct group names give distinct output files as long as neither
    the stem nor the names contain a path separator. *)

Lemma length_append (a b : string) :
  String.length (a +:+ b) = String.length a + String.length b.
Proof.
  induction a as [|c a IH]; [done|].
  change (S (String.length (a +:+ b)) = S (String.length a + String.length b)).
  by rewrite IH.
Qed.

Lemma append_inj_r (t : string) : forall a b, a +:+ t = b +:+ t -> a = b.
Proof.
  induction a as [|c a IH]; intros [|d b] H; [done| | |].
  - apply (f_equal String.length) in H.
    rewrite !length_append in H. cbn in H. lia.
  - apply (f_equal String.length) in H.
    rewrite !length_append in H. cbn in H. lia.
  - change (String c (a +:+ t) = String d (b +:+ t)) in H.
    injection H as -> H. f_equal. by apply IH.
Qed.

Lemma has_sep_append (a b : string) :
  has_sep (a +:+ b) = has_sep a || has_sep b.
Proof.
  induction a as [|c a IH]; [done|].
  change (String c a +:+ b) with (String c (a +:+ b)). cbn.
  by rewrite IH, orb_assoc.
Qed.

Lemma split_no_sep (s : string) : has_sep s = false -> split "/" s = [s].
Proof.
  induction s as [|c s IH]; [done|]. cbn.
  destruct (Ascii.eqb c "/"); [done|]. cbn. intros H. by rewrite IH.
Qed.

Lemma splitroot_no_sep (s : string) : has_sep s = false -> splitroot s = "".
Proof.
  destruct s as [|c s]; [done|]. cbn.
  destruct (Ascii.eqb_spec c "/") as [->|Hc]; [done|]. intros _.
  destruct c as [[] [] [] [] [] [] [] []]; try done.
Qed.

Lemma is_root_no_sep (s : string) : has_sep s = false -> is_root s = false.
Proof.
  destruct s as [|c s]; [done|]. cbn.
  destruct (Ascii.eqb_spec c "/") as [->|Hc]; [done|]. intros _.
  unfold is_root. apply orb_false_iff. split; apply String.eqb_neq;
    intros [= -> _]; done.
Qed.

Lemma PurePath_single (s : string) :
  has_sep s = false -> 1 < String.length s -> PurePath s = [s].
Proof.
  intros Hsep Hlen. unfold PurePath.
  rewrite splitroot_no_sep, split_no_sep by done. cbn.
  unfold keep_part.
  destruct (String.eqb_spec s "") as [->|_]; [cbn in Hlen; lia|].
  destruct (String.eqb_spec s ".") as [->|_]; [cbn in Hlen; lia|]. done.
Qed.

Lemma output_path_single (p : Path) (g : Group) :
  has_sep (stem p) = false -> has_sep (group_name g) = false ->
  output_path p g
  = parent p ++ [stem p +:+ "_" +:+ group_name g +:+ ".csv"].
Proof.
  intros Hstem Hname.
  unfold output_path, construct_destination_file_path, truediv.
  rewrite PurePath_single.
  - cbn. by rewrite is_root_no_sep
      by (rewrite !has_sep_append, Hstem, Hname; done).
  - by rewrite !has_sep_append, Hstem, Hname.
  - rewrite !length_append. cbn. lia.
Qed.

Lemma output_path_inj (p : Path) (g1 g2 : Group) :
  has_sep (stem p) = false ->
  has_sep (group_name g1) = false -> has_sep (group_name g2) = false ->
  output_path p g1 = output_path p g2 -> group_name g1 = group_name g2.
Proof.
  intros Hstem H1 H2. rewrite !output_path_single by done.
  intros Heq. apply app_inj_tail in Heq as [_ Heq].
  apply (inj (String.app _)) in Heq. apply (inj (String.app _)) in Heq.
  by apply append_inj_r in Heq.
Qed.

(** X15.  When neither the stem nor any group name contains a path
    separator, groups with pairwise distinct names have pairwise distinct
    output paths. *)
Lemma output_paths_NoDup (p : Path) (groups : list Group) :
  has_sep (stem p) = false ->
  Forall (fun g => has_sep (group_name g) = false) groups ->
  NoDup (List.map group_name groups) ->
  NoDup (List.map (output_path p) (List.filter has_rows groups)).
Proof.
  intros Hstem. induction groups as [|g groups IH]; intros Hsep Hnd; cbn.
  - constructor.
  - apply Forall_cons in Hsep as [Hg Hsep]. cbn in Hnd.
    apply NoDup_cons in Hnd as [Hnotin Hnd].
    destruct (has_rows g); [|by apply IH]. cbn. constructor; [|by apply IH].
    intros Hin. apply Hnotin.
    apply list_elem_of_In, in_map_iff in Hin as (g' & Heq & Hin').
    apply filter_In in Hin' as [Hin' _].
    apply list_elem_of_In, in_map_iff. exists g'. split; [|done].
    rewrite Forall_forall in Hsep.
    apply (output_path_inj p); try done.
    apply Hsep. by apply list_elem_of_In.
Qed.

(** * Claims about single-file conversion *)

(** C7 (as amended).  A source file that opens and whose group enumeration
    yields no group makes the conversion return failure with the message
    "No groups found in TDMS file" and an empty created-files list; nothing
    is written. *)
Theorem no_groups_is_failure (w : World) (source_file_path : Path)
    (s : State) (tdms_file : TdmsFile) :
  stat w (str source_file_path) = Some (File (inr tdms_file)) ->
  tdms_groups tdms_file = inr [] ->
  convert_tdms_file w source_file_path s
  = ((false, "No groups found in TDMS file", []),
     printed (EvProcessing (name source_file_path)) s).
Proof.
  intros Hstat Hgroups. rewrite convert_tdms_file_run. cbn zeta.
  unfold read_groups. by rewrite Hstat, Hgroups.
Qed.

Lemma no_groups_is_failure_witness :
  stat Scenario.hollow_world (str Scenario.x_path)
  = Some (File (inr (mkTdmsFile (inr []))))
  /\ tdms_groups (mkTdmsFile (inr [])) = inr []
  /\ convert_tdms_file Scenario.hollow_world Scenario.x_path Scenario.start
     = ((false, "No groups found in TDMS file", []),
        printed (EvProcessing "x.tdms") Scenario.start).
Proof.
  split; [reflexivity|]. split; [reflexivity|].
  apply (no_groups_is_failure Scenario.hollow_world Scenario.x_path
           Scenario.start (mkTdmsFile (inr []))); reflexivity.
Defined.

(** C7 as stated fails: the message returned for a file without groups is
    not the string "no groups found". *)
Lemma no_groups_message_differs :
  let result := fst (convert_tdms_file Scenario.hollow_world Scenario.x_path
                       Scenario.start) in
  fst (fst result) = false
  /\ snd result = []
  /\ snd (fst result) <> "no groups found".
Proof. vm_compute. repeat split. discriminate. Qed.










(** * Tables shorter than the number of segments *)

Lemma section_sizes_short n :
  n < 101 -> section_sizes n 101 = replicate n 1 ++ replicate (101 - n) 0.
Proof.
  intros Hn. unfold section_sizes.
  by rewrite Nat.div_small, Nat.mod_small by done.
Qed.

Lemma count_zero_sizes (a b : nat) :
  List.length (List.filter (fun k => Nat.eqb k 0) (replicate a 1 ++ replicate b 0)) = b.
Proof.
  rewrite List.filter_app, length_app.
  assert (H1 : List.filter (fun k => Nat.eqb k 0) (replicate a 1) = []).
  { induction a as [|a IH]; [done|]. cbn. exact IH. }
  assert (H0 : List.filter (fun k => Nat.eqb k 0) (replicate b 0) = replicate b 0).
  { induction b as [|b IH]; [done|]. cbn. by rewrite IH. }
  rewrite H1, H0, length_replicate. done.
Qed.

Lemma filter_length_sizes {A} (segs : list (list A)) :
  List.filter (fun k => Nat.eqb k 0) (List.map (@List.length A) segs)
  = List.map (@List.length A)
      (List.filter (fun seg => Nat.eqb (List.length seg) 0) segs).
Proof.
  induction segs as [|seg segs IH]; [done|]. cbn.
  destruct (Nat.eqb (List.length seg) 0); cbn; by rewrite IH.
Qed.

(** C10.  For a table with N rows, 0 < N < 101, whose writes all succeed:
    the split gives 101 segments of which 101 - N are empty; an empty
    segment adds no data row, whether written (the header alone) or
    appended (the file is unchanged); the chunked writer leaves exactly
    the file of a single unchunked write, the header line followed by the
    N data rows; and the conversion of the group succeeds and records its
    output path. *)
Theorem short_table_conversion (w : World) (source_file_path : Path)
    (n_groups group_idx : nat) (g : Group) (df : DataFrame) (s : State)
    (created_files : list string) :
  as_dataframe g = inr df ->
  0 < List.length (rows df) < 101 ->
  (forall j, j < 101 -> fault w (clock s + j) = None) ->
  let path := output_path source_file_path g in
  exists segments,
    array_split (index df) 101 = inr segments
    /\ List.length segments = 101
    /\ List.length (List.filter (fun seg => Nat.eqb (List.length seg) 0) segments)
       = 101 - List.length (rows df)
    /\ (forall s0, fault w (clock s0) = None ->
          exists s1, write_chunk w df path (0, []) s0 = (inr tt, s1)
                     /\ files s1 !! path = Some [Header (columns df)])
    /\ (forall count s0, 0 < count -> fault w (clock s0) = None ->
          exists s1, write_chunk w df path (count, []) s0 = (inr tt, s1)
                     /\ default [] (files s1 !! path) = default [] (files s0 !! path))
    /\ exists s' s1,
         write_segments w df path segments s = (inr tt, s')
         /\ to_csv w df path true ModeW s = (inr tt, s1)
         /\ files s' = files s1
         /\ files s' !! path = Some (full_csv df)
         /\ List.length (full_csv df) = 1 + List.length (rows df)
         /\ List.length (List.filter is_header (full_csv df)) = 1
         /\ exists s'',
              convert_group w source_file_path n_groups (group_idx, g)
                (s, created_files)
              = (inr tt, (s'', created_files ++ [str path]))
              /\ files s'' = files s'.
Proof.
  intros Hg [Hpos Hlt] Hfault path. subst path.
  pose proof (as_dataframe_NoDup _ _ Hg) as Hnd.
  pose proof (as_dataframe_rows _ _ Hg) as Hcount.
  assert (Hrows : has_rows g = true).
  { unfold has_rows. rewrite <- Hcount. by apply Nat.ltb_lt. }
  exists (List.map (List.map fst) (row_chunks df)).
  split; [apply segments_row_chunks|].
  split; [by rewrite List.length_map, row_chunks_length|].
  split.
  { rewrite <- (List.length_map (@List.length nat)), <- filter_length_sizes.
    rewrite List.map_map.
    erewrite List.map_ext by (intros c; apply List.length_map).
    unfold row_chunks.
    rewrite chunks_lengths by (rewrite section_sizes_sum; lia).
    rewrite section_sizes_short by done. apply count_zero_sizes. }
  split.
  { intros s0 Hf. unfold write_chunk, bind, lift, loc, to_csv. cbn.
    rewrite Hf. eexists. split; [reflexivity|]. cbn. apply lookup_insert_eq. }
  split.
  { intros count s0 Hc Hf. unfold write_chunk. cbn [fst snd].
    destruct (Nat.eqb_spec count 0) as [|_]; [lia|].
    unfold bind, lift, loc, to_csv. cbn. rewrite Hf.
    eexists. split; [reflexivity|]. cbn.
    by rewrite lookup_insert_eq, app_nil_r. }
  rewrite write_segments_run by (try done; apply row_chunks_sub).
  rewrite row_chunks_length, first_fault_none by done.
  pose proof (Hfault 0 ltac:(lia)) as Hf0. rewrite Nat.add_0_r in Hf0.
  unfold to_csv. rewrite Hf0.
  eexists _, _. split; [reflexivity|]. split; [reflexivity|].
  cbn [files written app csv_lines].
  rewrite take_ge by (rewrite row_chunks_length; lia).
  rewrite row_chunks_concat.
  split; [done|].
  split; [apply lookup_insert_eq|].
  split; [unfold full_csv, data_lines; cbn; by rewrite List.length_map|].
  split; [apply full_csv_one_header|].
  rewrite convert_group_rows by done.
  rewrite first_fault_none by done.
  eexists. split; [reflexivity|]. cbn [files].
  unfold group_csv. by rewrite Hg.
Qed.

Lemma short_table_conversion_witness :
  let p := Scenario.x_path in
  as_dataframe Scenario.short = inr Scenario.short_df
  /\ 0 < List.length (rows Scenario.short_df) < 101
  /\ (forall j, j < 101 -> fault Scenario.world (clock Scenario.start + j) = None)
  /\ exists segments s',
       array_split (index Scenario.short_df) 101 = inr segments
       /\ List.length (List.filter (fun seg => Nat.eqb (List.length seg) 0) segments)
          = 101 - List.length (rows Scenario.short_df)
       /\ write_segments Scenario.world Scenario.short_df
            (output_path p Scenario.short) segments Scenario.start
          = (inr tt, s')
       /\ files s' !! output_path p Scenario.short
          = Some (full_csv Scenario.short_df).
Proof.
  intros p.
  assert (H1 : as_dataframe Scenario.short = inr Scenario.short_df)
    by (vm_compute; reflexivity).
  assert (H2 : 0 < List.length (rows Scenario.short_df) < 101)
    by (vm_compute; lia).
  assert (H3 : forall j, j < 101 ->
                 fault Scenario.world (clock Scenario.start + j) = None)
    by (intros j _; reflexivity).
  pose proof (short_table_conversion Scenario.world p 1 1 Scenario.short
                Scenario.short_df Scenario.start [] H1 H2 H3)
    as (segments & Hsplit & _ & Hempty & _ & _ & s' & _ & Hrun & _ & _ & Hfile & _).
  exact (conj H1 (conj H2 (conj H3
           (ex_intro _ segments (ex_intro _ s'
              (conj Hsplit (conj Hempty (conj Hrun Hfile)))))))).
Defined.

(** * Discovery *)

Lemma Node_induction (P : Node -> Prop) :
  (forall content, P (File content)) ->
  (forall entries, Forall (fun e => P (snd e)) entries -> P (Dir entries)) ->
  forall n, P n.
Proof.
  intros HF HD. fix IH 1. intros [content|entries]; [apply HF|].
  apply HD. induction entries as [|[nm child] entries IHes]; constructor.
  - apply IH.
  - exact IHes.
Qed.

Lemma iterate_directories_Dir parent_path entries :
  iterate_directories parent_path (Dir entries)
  = (parent_path, entries)
    :: List.flat_map
         (fun e => iterate_directories (parent_path ++ [fst e]) (snd e)) entries.
Proof.
  cbn. f_equal. induction entries as [|[nm child] entries IH]; [done|].
  cbn. by rewrite IH.
Qed.

Lemma reaches_snoc n rel nm m :
  reaches n (rel ++ [nm]) m
  <-> exists entries, reaches n rel (Dir entries) /\ (nm, m) ∈ entries.
Proof.
  split.
  - revert n. induction rel as [|c rel IH]; intros n H; cbn in H.
    + inversion H as [|entries nm' child rel' m' Hin Hr]; subst.
      inversion Hr; subst. exists entries. split; [constructor|done].
    + inversion H as [|entries nm' child rel' m' Hin Hr]; subst.
      destruct (IH _ Hr) as (es & Hes & Hm).
      exists es. split; [|done]. by econstructor.
  - intros (entries & Hr & Hin). revert n Hr.
    induction rel as [|c rel IH]; intros n Hr; cbn.
    + inversion Hr; subst. econstructor; [done|constructor].
    + inversion Hr as [|entries' nm' child rel' m' Hin' Hr']; subst.
      econstructor; [done|]. by apply IH.
Qed.

Lemma iterate_directories_spec n : forall parent_path d es,
  (d, es) ∈ iterate_directories parent_path n
  <-> exists rel, d = parent_path ++ rel /\ reaches n rel (Dir es).
Proof.
  induction n as [content|entries IH] using Node_induction;
    intros parent_path d es.
  - cbn. split; [by intros ?%elem_of_nil|].
    intros (rel & _ & H). inversion H.
  - rewrite iterate_directories_Dir. rewrite elem_of_cons. split.
    + intros [[= -> ->]|Hin].
      * exists []. split; [by rewrite app_nil_r|constructor].
      * apply list_elem_of_In, in_flat_map in Hin as ([nm child] & He & Hin).
        apply list_elem_of_In in He, Hin.
        rewrite Forall_forall in IH.
        apply (IH _ He) in Hin as (rel & -> & Hr). cbn [fst] in *.
        exists (nm :: rel). split; [by rewrite <- app_assoc|].
        by econstructor.
    + intros (rel & -> & Hr).
      inversion Hr as [|entries' nm child rel' m Hin Hr']; subst.
      * left. by rewrite app_nil_r.
      * right. apply list_elem_of_In, in_flat_map. exists (nm, child).
        split; [by apply list_elem_of_In|]. apply list_elem_of_In.
        rewrite Forall_forall in IH. apply (IH _ Hin). cbn [fst snd].
        exists rel'. split; [by rewrite <- app_assoc|done].
Qed.

Lemma yield_once_spec ps : forall yielded (p : Path),
  p ∈ yield_once yielded ps <-> p ∈ ps /\ p ∉ yielded.
Proof.
  induction ps as [|q ps IH]; intros yielded p; cbn.
  - split; [by intros ?%elem_of_nil|]. by intros [?%elem_of_nil _].
  - case_bool_decide as Hq.
    + rewrite IH, elem_of_cons. split; [naive_solver|].
      intros [[->|Hin] Hny]; [done|by split].
    + rewrite !elem_of_cons, IH, not_elem_of_cons. split.
      * intros [->|(Hin & Hne & Hny)]; [by split; [left|]|by split; [right|]].
      * intros [[->|Hin] Hny]; [by left|].
        destruct (decide (p = q)) as [->|Hne]; [by left|by right].
Qed.

Lemma yield_once_NoDup ps : forall yielded, NoDup (yield_once yielded ps).
Proof.
  induction ps as [|q ps IH]; intros yielded; cbn; [constructor|].
  case_bool_decide; [apply IH|]. constructor; [|apply IH].
  rewrite yield_once_spec. intros [_ Hn]. apply Hn. by left.
Qed.

(** What [rglob] yields below a node: every entry at any depth, regular
    file or directory, whose name ends with ".tdms", once, and nothing
    else. *)
Lemma rglob_node_spec root_path n (p : Path) :
  p ∈ rglob_node root_path n
  <-> exists rel nm m,
        p = root_path ++ rel ++ [nm]
        /\ reaches n (rel ++ [nm]) m
        /\ endswith nm ".tdms" = true.
Proof.
  unfold rglob_node. rewrite yield_once_spec. split.
  - intros [Hin _].
    apply list_elem_of_In, in_flat_map in Hin as ([d es] & Hd & Hp).
    apply list_elem_of_In, iterate_directories_spec in Hd as (rel & -> & Hr).
    unfold select_from in Hp. cbn [fst snd] in Hp.
    apply in_map_iff in Hp as ([nm m] & <- & Hf).
    apply filter_In in Hf as [Hin Hmatch]. cbn [fst] in *.
    exists rel, nm, m. split; [by rewrite <- app_assoc|].
    split; [|done]. apply reaches_snoc. exists es.
    split; [done|by apply list_elem_of_In].
  - intros (rel & nm & m & -> & Hr & Hmatch).
    split; [|by intros ?%elem_of_nil].
    apply reaches_snoc in Hr as (es & Hr & Hin).
    apply list_elem_of_In, in_flat_map. exists (root_path ++ rel, es). split.
    + apply list_elem_of_In, iterate_directories_spec. by exists rel.
    + unfold select_from. cbn [fst snd]. apply in_map_iff.
      exists (nm, m). split; [by rewrite <- app_assoc|].
      apply filter_In. split; [by apply list_elem_of_In|done].
Qed.

Lemma rglob_node_NoDup root_path n : NoDup (rglob_node root_path n).
Proof. apply yield_once_NoDup. Qed.

(** X1.  Discovery on an existing directory returns the paths of all
    entries below it, at any depth, whose name ends with ".tdms", each
    once, and nothing else. *)
Lemma find_tdms_files_spec (w : World) (root_directory : string) entries :
  stat w (str (PurePath root_directory)) = Some (Dir entries) ->
  exists tdms_files,
    find_tdms_files w root_directory = inr tdms_files
    /\ NoDup tdms_files
    /\ forall p : Path,
         p ∈ tdms_files
         <-> exists rel nm m,
               p = PurePath root_directory ++ rel ++ [nm]
               /\ reaches (Dir entries) (rel ++ [nm]) m
               /\ endswith nm ".tdms" = true.
Proof.
  intros Hstat. unfold find_tdms_files, Path_exists, Path_is_dir, rglob.
  rewrite Hstat. cbn [is_dir negb]. eexists. split; [reflexivity|].
  split; [apply rglob_node_NoDup|]. intros p. apply rglob_node_spec.
Qed.

(** C6.  Discovery on a root that does not exist fails with
    FileNotFoundError, on a root that exists but is not a directory with
    NotADirectoryError; on an existing directory it returns the result of
    the traversal; and an exception it raises is one of these two, with
    the corresponding precondition violated. *)
Theorem discovery_preconditions (w : World) (root_directory : string) :
  let root_path := PurePath root_directory in
  (Path_exists w root_path = false ->
   find_tdms_files w root_directory
   = inl (mkExn FileNotFoundError
            ("Directory does not exist: " +:+ root_directory)))
  /\ (Path_exists w root_path = true -> Path_is_dir w root_path = false ->
      find_tdms_files w root_directory
      = inl (mkExn NotADirectoryError
               ("Path is not a directory: " +:+ root_directory)))
  /\ (Path_exists w root_path = true -> Path_is_dir w root_path = true ->
      find_tdms_files w root_directory = inr (rglob w root_path))
  /\ (forall e, find_tdms_files w root_directory = inl e ->
      (Path_exists w root_path = false /\ exn_kind e = FileNotFoundError)
      \/ (Path_exists w root_path = true /\ Path_is_dir w root_path = false
          /\ exn_kind e = NotADirectoryError)).
Proof.
  intros root_path. subst root_path. unfold find_tdms_files.
  destruct (Path_exists w (PurePath root_directory)) eqn:Hex;
    destruct (Path_is_dir w (PurePath root_directory)) eqn:Hdir; cbn;
    repeat split; try done; intros e [= <-]; cbn; auto.
Qed.

Lemma discovery_preconditions_witness :
  (Path_exists Scenario.world (PurePath "/nope") = false
   /\ exists msg, find_tdms_files Scenario.world "/nope"
                  = inl (mkExn FileNotFoundError msg))
  /\ (Path_exists Scenario.world (PurePath "/data/a/x.tdms") = true
      /\ Path_is_dir Scenario.world (PurePath "/data/a/x.tdms") = false
      /\ exists msg, find_tdms_files Scenario.world "/data/a/x.tdms"
                     = inl (mkExn NotADirectoryError msg))
  /\ (Path_exists Scenario.world (PurePath "/data") = true
      /\ Path_is_dir Scenario.world (PurePath "/data") = true
      /\ find_tdms_files Scenario.world "/data"
         = inr (rglob Scenario.world (PurePath "/data"))).
Proof.
  assert (H1 : Path_exists Scenario.world (PurePath "/nope") = false)
    by (vm_compute; reflexivity).
  assert (H2 : Path_exists Scenario.world (PurePath "/data/a/x.tdms") = true)
    by (vm_compute; reflexivity).
  assert (H3 : Path_is_dir Scenario.world (PurePath "/data/a/x.tdms") = false)
    by (vm_compute; reflexivity).
  assert (H4 : Path_exists Scenario.world (PurePath "/data") = true)
    by (vm_compute; reflexivity).
  assert (H5 : Path_is_dir Scenario.world (PurePath "/data") = true)
    by (vm_compute; reflexivity).
  pose proof (discovery_preconditions Scenario.world "/nope") as (Ha & _).
  pose proof (discovery_preconditions Scenario.world "/data/a/x.tdms")
    as (_ & Hb & _).
  pose proof (discovery_preconditions Scenario.world "/data") as (_ & _ & Hc & _).
  exact (conj (conj H1 (ex_intro _ _ (Ha H1)))
           (conj (conj H2 (conj H3 (ex_intro _ _ (Hb H2 H3))))
              (conj H4 (conj H5 (Hc H4 H5))))).
Defined.

(** C5 at a failing input.  Below [/data/a] lie the container [x.tdms] and
    a directory named [raw.tdms]: discovery returns both paths, although
    the second one is a directory and not a file, and the conversion
    later invoked on it fails. *)
Theorem discovery_returns_matching_directory :
  find_tdms_files Scenario.directory_world "/data"
  = inr [["/"; "data"; "a"; "x.tdms"]; ["/"; "data"; "a"; "raw.tdms"]]
  /\ Path_is_dir Scenario.directory_world ["/"; "data"; "a"; "raw.tdms"] = true
  /\ fst (fst (fst (convert_tdms_file Scenario.directory_world
                      ["/"; "data"; "a"; "raw.tdms"] Scenario.start)))
     = false.
Proof. vm_compute. repeat split. Qed.

(** * The batch *)

Section Batch.

Variable w : World.

Lemma bind_print {A} (e : Event) (k : M State A) (s : State) :
  (print e >> k) s = k (printed e s).
Proof. reflexivity. Qed.

Lemma bind_lift_inr {S A B} (a : A) (k : A -> M S B) (s : S) :
  (let* x := lift (inr a) in k x) s = k a s.
Proof. reflexivity. Qed.

Lemma batch_loop_run total_files entries : forall c s,
  exists s',
    batch_loop w total_files entries c s
    = (inr (fold_results c (conversion_results w total_files entries s)), s').
Proof.
  induction entries as [|[file_idx tdms_file] rest IH]; intros c s.
  - exists s. cbn. unfold ret, fold_results. cbn. rewrite !Nat.add_0_r.
    by destruct c.
  - cbn [batch_loop conversion_results]. unfold bind at 1, print at 1.
    fold (printed (EvConverting file_idx total_files tdms_file) s).
    unfold bind at 1.
    destruct (convert_tdms_file w tdms_file
                (printed (EvConverting file_idx total_files tdms_file) s))
      as [[[success error_msg] created_files] s1] eqn:Hrun.
    cbn [fst snd]. destruct success.
    + unfold bind at 1, print at 1.
      fold (printed (EvSuccess (List.length created_files)) s1).
      destruct (IH (mkCounters (successful_conversions c + 1)
                      (failed_conversions c)
                      (total_csv_files_created c + List.length created_files))
                   (printed (EvSuccess (List.length created_files)) s1))
        as [s' ->].
      exists s'. f_equal. f_equal. unfold fold_results, succeeded, created.
      cbn. f_equal; lia.
    + unfold bind at 1, print at 1. fold (printed (EvFailed error_msg) s1).
      destruct (IH (mkCounters (successful_conversions c)
                      (failed_conversions c + 1) (total_csv_files_created c))
                   (printed (EvFailed error_msg) s1))
        as [s' ->].
      exists s'. f_equal. f_equal. unfold fold_results, succeeded, created.
      cbn. f_equal; lia.
Qed.

Lemma conversion_results_length total_files entries : forall s,
  List.length (conversion_results w total_files entries s) = List.length entries.
Proof.
  induction entries as [|[file_idx tdms_file] rest IH]; intros s; [done|].
  cbn. by rewrite IH.
Qed.

Lemma filter_partition_length {A} (f : A -> bool) (l : list A) :
  List.length (List.filter f l) + List.length (List.filter (fun x => negb (f x)) l)
  = List.length l.
Proof. induction l as [|x l IH]; [done|]. cbn. destruct (f x); cbn; lia. Qed.

Lemma enumerate_length {A} (xs : list A) start :
  List.length (enumerate xs start) = List.length xs.
Proof. unfold enumerate. rewrite length_combine, List.length_seq. lia. Qed.

Lemma batch_convert_run root_directory s :
  let s0 := printed (EvBanner root_directory) s in
  match find_tdms_files w root_directory with
  | inl e =>
      batch_convert_tdms_files w root_directory s
      = (inr (SysExit 1), printed (EvFatal (exn_str e)) s0)
  | inr [] =>
      batch_convert_tdms_files w root_directory s
      = (inr Returned, printed EvNoFilesFound s0)
  | inr tdms_files =>
      let total_files := List.length tdms_files in
      let c := fold_results (mkCounters 0 0 0)
                 (conversion_results w total_files (enumerate tdms_files 1)
                    (printed (EvFound total_files) s0)) in
      exists s_loop,
        batch_convert_tdms_files w root_directory s
        = (inr Returned,
           mkState (files s_loop) (clock s_loop)
             (stdout s_loop
              ++ [EvSummary total_files (successful_conversions c)
                    (failed_conversions c) (total_csv_files_created c);
                  EvVerdict (verdict c)]))
  end.
Proof.
  intros s0. unfold batch_convert_tdms_files.
  rewrite bind_print. fold s0. unfold try_except.
  destruct (find_tdms_files w root_directory) as [e|tdms_files].
  - unfold bind at 1. cbn [lift raise]. unfold raise. by rewrite bind_print.
  - rewrite bind_lift_inr. destruct tdms_files as [|f tdms_files].
    + by rewrite bind_print.
    + set (files0 := f :: tdms_files). rewrite bind_print.
      unfold bind at 1.
      destruct (batch_loop_run (List.length files0) (enumerate files0 1)
                  (mkCounters 0 0 0) (printed (EvFound (List.length files0)) s0))
        as [s_loop ->].
      exists s_loop. rewrite !bind_print. unfold ret, printed. cbn.
      by rewrite <- app_assoc.
Qed.

End Batch.

(** C8 (as amended).  After a batch over a non-empty list of discovered
    files, the summary reports as total the number of discovered files, as
    succeeded and failed the numbers of successful and failed
    ConversionResults, which add up to the total, and as outputs created
    the sum of the created-files list lengths over the successful results
    only. *)
Theorem batch_summary_counts (w : World) (root_directory : string)
    (s : State) (tdms_files : list Path) :
  find_tdms_files w root_directory = inr tdms_files ->
  tdms_files <> [] ->
  let total_files := List.length tdms_files in
  let results :=
    conversion_results w total_files (enumerate tdms_files 1)
      (printed (EvFound total_files) (printed (EvBanner root_directory) s)) in
  let successful := List.length (List.filter succeeded results) in
  let failed := List.length (List.filter (fun r => negb (succeeded r)) results) in
  let total_csv :=
    sum_list_with (fun r => List.length (created r))
      (List.filter succeeded results) in
  List.length results = total_files
  /\ successful + failed = total_files
  /\ exists s_loop,
       batch_convert_tdms_files w root_directory s
       = (inr Returned,
          mkState (files s_loop) (clock s_loop)
            (stdout s_loop
             ++ [EvSummary total_files successful failed total_csv;
                 EvVerdict (verdict (mkCounters successful failed total_csv))])).
Proof.
  intros Hfind Hne total_files results successful failed total_csv.
  assert (Hlen : List.length results = total_files).
  { unfold results. by rewrite conversion_results_length, enumerate_length. }
  split; [done|].
  split. { unfold successful, failed. by rewrite filter_partition_length. }
  pose proof (batch_convert_run w root_directory s) as Hrun.
  cbn zeta in Hrun. rewrite Hfind in Hrun.
  destruct tdms_files as [|f rest]; [done|]. exact Hrun.
Qed.

Lemma batch_summary_counts_witness :
  let s0 := printed (EvFound 2) (printed (EvBanner "/data") Scenario.start) in
  let tdms_files := [Scenario.x_path; ["/"; "data"; "b"; "y.tdms"]] in
  find_tdms_files Scenario.world "/data" = inr tdms_files
  /\ tdms_files <> []
  /\ List.length (conversion_results Scenario.world 2 (enumerate tdms_files 1) s0)
     = 2.
Proof.
  intros s0 tdms_files.
  assert (H1 : find_tdms_files Scenario.world "/data" = inr tdms_files)
    by (vm_compute; reflexivity).
  assert (H2 : tdms_files <> []) by discriminate.
  pose proof (batch_summary_counts Scenario.world "/data" Scenario.start
                tdms_files H1 H2) as (Hlen & _).
  exact (conj H1 (conj H2 Hlen)).
Defined.

(** C8 as stated fails: a conversion that fails in its second group has
    created one file, which exists on disk, but the summary counts no
    output for it. *)
Lemma failed_outputs_not_counted :
  let run := batch_convert_tdms_files Scenario.corrupt_world "/data"
               Scenario.start in
  let results :=
    conversion_results Scenario.corrupt_world 1 [(1, Scenario.x_path)]
      (printed (EvFound 1) (printed (EvBanner "/data") Scenario.start)) in
  find_tdms_files Scenario.corrupt_world "/data" = inr [Scenario.x_path]
  /\ List.map succeeded results = [false]
  /\ List.map created results = [["/data/a/x_Short.csv"]]
  /\ sum_list_with (fun r => List.length (created r)) results = 1
  /\ files (snd run) !! ["/"; "data"; "a"; "x_Short.csv"]
     = Some (group_csv Scenario.short)
  /\ List.nth_error (List.rev (stdout (snd run))) 1 = Some (EvSummary 1 0 1 0).
Proof. vm_compute. repeat split. Qed.

(** * The command line *)

(** C9.  The exit status of the entry point is 1 when the argument vector
    does not hold exactly the program name and one argument, when the
    given path does not exist, when it is not a directory, and when
    discovery raises inside the batch, the one exception that can escape
    the loop; otherwise it is 0, whatever the individual conversions did.
    A discovery that finds no file is reported and the batch returns
    normally; an exception of discovery is reported as fatal and ends the
    batch with [sys.exit(1)]. *)
Theorem main_exit_status (w : World) (argv : list string) (s : State) :
  process_status (fst (main w argv s))
  = match argv with
    | [_; root_directory] =>
        if negb (os_path_exists w root_directory) then 1
        else if negb (os_path_isdir w root_directory) then 1
        else match find_tdms_files w root_directory with
             | inl _ => 1
             | inr _ => 0
             end
    | _ => 1
    end
  /\ (forall root_directory,
        find_tdms_files w root_directory = inr [] ->
        batch_convert_tdms_files w root_directory s
        = (inr Returned,
           printed EvNoFilesFound (printed (EvBanner root_directory) s)))
  /\ (forall root_directory e,
        find_tdms_files w root_directory = inl e ->
        batch_convert_tdms_files w root_directory s
        = (inr (SysExit 1),
           printed (EvFatal (exn_str e)) (printed (EvBanner root_directory) s)))
  /\ (forall root_directory tdms_files,
        find_tdms_files w root_directory = inr tdms_files ->
        fst (batch_convert_tdms_files w root_directory s) = inr Returned).
Proof.
  assert (Hbatch : forall root_directory tdms_files,
            find_tdms_files w root_directory = inr tdms_files ->
            fst (batch_convert_tdms_files w root_directory s) = inr Returned).
  { intros root_directory tdms_files Hfind.
    pose proof (batch_convert_run w root_directory s) as Hrun.
    cbn zeta in Hrun. rewrite Hfind in Hrun.
    destruct tdms_files as [|f rest]; [by rewrite Hrun|].
    destruct Hrun as [s_loop ->]. done. }
  split; [|split; [|split]].
  - unfold main.
    destruct argv as [|prog [|root_directory [|extra argv]]]; try done.
    cbn [List.length Nat.eqb negb nth].
    destruct (os_path_exists w root_directory); [|done].
    destruct (os_path_isdir w root_directory); [|done].
    cbn [negb].
    destruct (find_tdms_files w root_directory) as [e|tdms_files] eqn:Hfind.
    + pose proof (batch_convert_run w root_directory s) as Hrun.
      cbn zeta in Hrun. rewrite Hfind in Hrun. by rewrite Hrun.
    + by rewrite (Hbatch _ _ Hfind).
  - intros root_directory Hfind.
    pose proof (batch_convert_run w root_directory s) as Hrun.
    cbn zeta in Hrun. by rewrite Hfind in Hrun.
  - intros root_directory e Hfind.
    pose proof (batch_convert_run w root_directory s) as Hrun.
    cbn zeta in Hrun. by rewrite Hfind in Hrun.
  - exact Hbatch.
Qed.

Lemma main_exit_status_witness :
  process_status (fst (main Scenario.world ["batches.py"; "/data"] Scenario.start)) = 0
  /\ process_status (fst (main Scenario.world ["batches.py"] Scenario.start)) = 1
  /\ process_status (fst (main Scenario.world ["batches.py"; "/nope"] Scenario.start)) = 1
  /\ process_status
       (fst (main Scenario.world ["batches.py"; "/data/a/x.tdms"] Scenario.start)) = 1
  /\ process_status
       (fst (main Scenario.world ["batches.py"; "/data/a"; "/data/b"] Scenario.start)) = 1.
Proof.
  pose proof (proj1 (main_exit_status Scenario.world ["batches.py"; "/data"]
                       Scenario.start)) as H1.
  pose proof (proj1 (main_exit_status Scenario.world ["batches.py"]
                       Scenario.start)) as H2.
  pose proof (proj1 (main_exit_status Scenario.world ["batches.py"; "/nope"]
                       Scenario.start)) as H3.
  pose proof (proj1 (main_exit_status Scenario.world
                       ["batches.py"; "/data/a/x.tdms"] Scenario.start)) as H4.
  pose proof (proj1 (main_exit_status Scenario.world
                       ["batches.py"; "/data/a"; "/data/b"] Scenario.start)) as H5.
  exact (conj (eq_trans H1 ltac:(vm_compute; reflexivity))
           (conj H2
              (conj (eq_trans H3 ltac:(vm_compute; reflexivity))
                 (conj (eq_trans H4 ltac:(vm_compute; reflexivity)) H5)))).
Defined.

(** * More on output paths *)

Lemma parent_snoc (d : Path) (f : string) :
  is_root f = false -> parent (d ++ [f]) = d.
Proof.
  intros Hf. destruct d as [|x d]; [cbn; by rewrite Hf|].
  assert (Hlong : forall l : Path, l <> [] -> parent (x :: l) = removelast (x :: l))
    by (by intros [|? ?]).
  change ((x :: d) ++ [f]) with (x :: (d ++ [f])).
  rewrite Hlong by (by destruct d).
  change (x :: (d ++ [f])) with ((x :: d) ++ [f]).
  by rewrite removelast_last.
Qed.

Lemma name_snoc (d : Path) (f : string) :
  is_root f = false -> name (d ++ [f]) = f.
Proof.
  intros Hf. destruct d as [|x d]; [cbn; by rewrite Hf|].
  assert (Hlong : forall l : Path, l <> [] -> name (x :: l) = List.last (x :: l) "")
    by (by intros [|? ?]).
  change ((x :: d) ++ [f]) with (x :: (d ++ [f])).
  rewrite Hlong by (by destruct d).
  change (x :: (d ++ [f])) with ((x :: d) ++ [f]).
  by rewrite last_last.
Qed.

Lemma destination_single (p : Path) (gname fmt : string) :
  has_sep (stem p) = false -> has_sep gname = false -> has_sep fmt = false ->
  construct_destination_file_path p gname fmt
  = parent p ++ [stem p +:+ "_" +:+ gname +:+ "." +:+ fmt].
Proof.
  intros Hstem Hname Hfmt. unfold construct_destination_file_path, truediv.
  rewrite PurePath_single.
  - cbn. by rewrite is_root_no_sep
      by (rewrite !has_sep_append, Hstem, Hname, Hfmt; done).
  - by rewrite !has_sep_append, Hstem, Hname, Hfmt.
  - rewrite !length_append. cbn. lia.
Qed.

(** X3.  With no path separator in the stem, the group name and the
    format, the destination lies in the directory of the source file and
    its name is stem, underscore, group name, dot, format. *)
Theorem destination_in_source_directory (p : Path) (gname fmt : string) :
  has_sep (stem p) = false -> has_sep gname = false -> has_sep fmt = false ->
  parent (construct_destination_file_path p gname fmt) = parent p
  /\ name (construct_destination_file_path p gname fmt)
     = stem p +:+ "_" +:+ gname +:+ "." +:+ fmt.
Proof.
  intros Hstem Hname Hfmt. rewrite destination_single by done.
  assert (Hroot : is_root (stem p +:+ "_" +:+ gname +:+ "." +:+ fmt) = false).
  { apply is_root_no_sep. by rewrite !has_sep_append, Hstem, Hname, Hfmt. }
  split; [by apply parent_snoc|by apply name_snoc].
Qed.

Lemma destination_in_source_directory_witness :
  has_sep (stem Scenario.x_path) = false
  /\ has_sep "Voltage" = false
  /\ has_sep "csv" = false
  /\ parent (construct_destination_file_path Scenario.x_path "Voltage" "csv")
     = parent Scenario.x_path
  /\ name (construct_destination_file_path Scenario.x_path "Voltage" "csv")
     = stem Scenario.x_path +:+ "_" +:+ "Voltage" +:+ "." +:+ "csv".
Proof.
  assert (H1 : has_sep (stem Scenario.x_path) = false) by reflexivity.
  assert (H2 : has_sep "Voltage" = false) by reflexivity.
  assert (H3 : has_sep "csv" = false) by reflexivity.
  pose proof (destination_in_source_directory Scenario.x_path "Voltage" "csv"
                H1 H2 H3) as [Ha Hb].
  exact (conj H1 (conj H2 (conj H3 (conj Ha Hb)))).
Defined.

(** ** Suffixes *)

Lemma append_assoc (a b c : string) : (a +:+ b) +:+ c = a +:+ (b +:+ c).
Proof.
  induction a as [|x a IH]; [done|].
  change (String x ((a +:+ b) +:+ c) = String x (a +:+ (b +:+ c))).
  by rewrite IH.
Qed.

Lemma substring_all (s : string) : substring 0 (String.length s) s = s.
Proof. induction s as [|c s IH]; [done|]. cbn. by rewrite IH. Qed.

Lemma substring_split (s : string) : forall k,
  k <= String.length s ->
  substring 0 k s +:+ substring k (String.length s - k) s = s.
Proof.
  induction s as [|c s IH]; intros k Hk.
  - cbn in Hk. by replace k with 0 by lia.
  - destruct k as [|k].
    + change (substring 0 0 (String c s)) with "".
      rewrite Nat.sub_0_r, substring_all. done.
    + cbn in Hk. cbn [String.length Nat.sub substring].
      change (String c (substring 0 k s) +:+ substring k (String.length s - k) s)
        with (String c (substring 0 k s +:+ substring k (String.length s - k) s)).
      rewrite IH by lia. done.
Qed.

Lemma endswith_split (s suffix : string) :
  endswith s suffix = true -> exists pre, s = pre +:+ suffix.
Proof.
  unfold endswith. intros [Hle Heq]%andb_prop.
  apply Nat.leb_le in Hle. apply String.eqb_eq in Heq.
  exists (substring 0 (String.length s - String.length suffix) s).
  pose proof (substring_split s (String.length s - String.length suffix)
                ltac:(lia)) as H.
  replace (String.length s - (String.length s - String.length suffix))
    with (String.length suffix) in H by lia.
  rewrite Heq in H. by symmetry.
Qed.

Lemma tdms_is_not_csv (pre : string) : forall t,
  pre +:+ ".tdms" = t +:+ ".csv" -> False.
Proof.
  induction pre as [|a pre IH]; intros t H.
  - destruct t as [|c [|d t]]; [cbv in H; discriminate|cbv in H; discriminate|].
    apply (f_equal String.length) in H. rewrite !length_append in H.
    cbn in H. lia.
  - destruct t as [|c t].
    + apply (f_equal String.length) in H. rewrite !length_append in H.
      cbn in H. lia.
    + change (String a (pre +:+ ".tdms") = String c (t +:+ ".csv")) in H.
      injection H as _ H. by apply IH in H.
Qed.

(** X4.  With no path separator in the stem and the group name, the name
    of a group's output file does not match the discovery pattern: the
    converter writes no file that discovery would return. *)
Theorem output_never_matches_discovery (p : Path) (g : Group) :
  has_sep (stem p) = false -> has_sep (group_name g) = false ->
  fnmatch_tdms (name (output_path p g)) = false.
Proof.
  intros Hstem Hname.
  unfold output_path. rewrite destination_single by done.
  rewrite name_snoc
    by (apply is_root_no_sep; by rewrite !has_sep_append, Hstem, Hname).
  destruct (fnmatch_tdms _) eqn:Hmatch; [|done].
  apply endswith_split in Hmatch as [pre Hpre]. exfalso.
  apply (tdms_is_not_csv pre (stem p +:+ "_" +:+ group_name g)).
  rewrite <- Hpre. by rewrite !append_assoc.
Qed.

Lemma output_never_matches_discovery_witness :
  has_sep (stem Scenario.x_path) = false
  /\ has_sep (group_name Scenario.voltage) = false
  /\ fnmatch_tdms (name (output_path Scenario.x_path Scenario.voltage)) = false.
Proof.
  assert (H1 : has_sep (stem Scenario.x_path) = false) by reflexivity.
  assert (H2 : has_sep (group_name Scenario.voltage) = false) by reflexivity.
  exact (conj H1 (conj H2
           (output_never_matches_discovery Scenario.x_path Scenario.voltage H1 H2))).
Defined.

(** ** Stems *)

Lemma rfind_append (c : ascii) (a b : string) :
  rfind c (a +:+ b)
  = match rfind c b with
    | Some i => Some (String.length a + i)
    | None => rfind c a
    end.
Proof.
  induction a as [|x a IH].
  { change ("" +:+ b) with b. by destruct (rfind c b). }
  change (String x a +:+ b) with (String x (a +:+ b)). cbn [rfind].
  rewrite IH. by destruct (rfind c b).
Qed.

Lemma substring_prefix (a b : string) :
  substring 0 (String.length a) (a +:+ b) = a.
Proof.
  induction a as [|x a IH].
  { change ("" +:+ b) with b. by destruct b. }
  change (String x a +:+ b) with (String x (a +:+ b)). cbn. by rewrite IH.
Qed.

(** X5.  A path whose name matches the discovery pattern has as stem the
    name without its ".tdms" suffix, except the name ".tdms" itself, which
    is its own stem. *)
Theorem stem_of_discovered_name (p : Path) :
  fnmatch_tdms (name p) = true ->
  (name p = ".tdms" /\ stem p = ".tdms")
  \/ (stem p <> "" /\ name p = stem p +:+ ".tdms").
Proof.
  intros Hmatch. apply endswith_split in Hmatch as [pre Hpre].
  unfold stem. rewrite Hpre, rfind_append.
  change (rfind "." ".tdms") with (Some 0). cbv beta iota.
  rewrite Nat.add_0_r.
  destruct pre as [|c pre]; [left; by split|]. right.
  rewrite length_append.
  replace (Nat.ltb 0 (String.length (String c pre))) with true by done.
  replace (Nat.ltb (String.length (String c pre))
             (String.length (String c pre) + String.length ".tdms" - 1))
    with true by (symmetry; apply Nat.ltb_lt; cbn; lia).
  cbn [andb]. rewrite substring_prefix. by split.
Qed.

Lemma stem_of_discovered_name_witness :
  fnmatch_tdms (name Scenario.x_path) = true
  /\ ((name Scenario.x_path = ".tdms" /\ stem Scenario.x_path = ".tdms")
      \/ (stem Scenario.x_path <> ""
          /\ name Scenario.x_path = stem Scenario.x_path +:+ ".tdms")).
Proof.
  assert (H : fnmatch_tdms (name Scenario.x_path) = true) by reflexivity.
  exact (conj H (stem_of_discovered_name Scenario.x_path H)).
Defined.

(** ** Group names with separators *)

Lemma split_nonempty (sep : ascii) (s : string) : split sep s <> [].
Proof.
  destruct s as [|c s]; [done|]. cbn.
  destruct (Ascii.eqb c sep); [done|]. by destruct (split sep s).
Qed.

Lemma split_join (a b : string) :
  split "/" (a +:+ "/" +:+ b) = split "/" a ++ split "/" b.
Proof.
  induction a as [|c a IH]; [done|].
  change (String c a +:+ "/" +:+ b) with (String c (a +:+ "/" +:+ b)).
  cbn [split]. rewrite IH. destruct (Ascii.eqb c "/"); [done|].
  pose proof (split_nonempty "/" a). by destruct (split "/" a).
Qed.

Lemma splitroot_prefix (x r : string) :
  has_sep x = false -> x <> "" -> splitroot (x +:+ r) = "".
Proof.
  intros Hsep Hne. destruct x as [|c x]; [done|].
  change (String c x +:+ r) with (String c (x +:+ r)). cbn in Hsep.
  destruct (Ascii.eqb_spec c "/") as [->|Hc]; [done|].
  destruct c as [[] [] [] [] [] [] [] []]; try done.
Qed.

(** X6.  Group names are used as they are: when the stem has no separator,
    two names that differ only by a doubled separator have the same
    output path. *)
Theorem doubled_separator_collides (p : Path) (a b : string)
    (c1 c2 : Exn + list Channel) :
  has_sep (stem p) = false ->
  output_path p (mkGroup (a +:+ "/" +:+ b) c1)
  = output_path p (mkGroup (a +:+ "//" +:+ b) c2).
Proof.
  intros Hstem.
  unfold output_path, construct_destination_file_path, truediv. cbn [group_name].
  set (s1 := stem p +:+ "_" +:+ (a +:+ "/" +:+ b) +:+ "." +:+ "csv").
  set (s2 := stem p +:+ "_" +:+ (a +:+ "//" +:+ b) +:+ "." +:+ "csv").
  set (X := stem p +:+ "_" +:+ a). set (Y := b +:+ ".csv").
  assert (Hx : has_sep (stem p +:+ "_") = false)
    by (by rewrite has_sep_append, Hstem).
  assert (Hne : stem p +:+ "_" <> "").
  { intros H. apply (f_equal String.length) in H.
    rewrite length_append in H. cbn in H. lia. }
  assert (Hr1 : splitroot s1 = "").
  { replace s1 with ((stem p +:+ "_") +:+ (a +:+ "/" +:+ Y))
      by (unfold s1, Y; by rewrite !append_assoc).
    by apply splitroot_prefix. }
  assert (Hr2 : splitroot s2 = "").
  { replace s2 with ((stem p +:+ "_") +:+ (a +:+ "//" +:+ Y))
      by (unfold s2, Y; by rewrite !append_assoc).
    by apply splitroot_prefix. }
  assert (Hs1 : split "/" s1 = split "/" X ++ split "/" Y).
  { replace s1 with (X +:+ "/" +:+ Y)
      by (unfold s1, X, Y; by rewrite !append_assoc).
    apply split_join. }
  assert (Hs2 : split "/" s2 = split "/" X ++ "" :: split "/" Y).
  { replace s2 with (X +:+ "/" +:+ ("/" +:+ Y))
      by (unfold s2, X, Y; by rewrite !append_assoc).
    by rewrite split_join. }
  assert (Heq : PurePath s1 = PurePath s2).
  { unfold PurePath. rewrite Hr1, Hr2, Hs1, Hs2, !List.filter_app. done. }
  by rewrite Heq.
Qed.

Lemma doubled_separator_collides_witness :
  has_sep (stem Scenario.x_path) = false
  /\ output_path Scenario.x_path Cases.first_ab
     = output_path Scenario.x_path Cases.second_ab.
Proof.
  assert (H : has_sep (stem Scenario.x_path) = false) by reflexivity.
  exact (conj H (doubled_separator_collides Scenario.x_path "a" "b"
                   (inr [mkChannel "t" (Scenario.ramp 3)])
                   (inr [mkChannel "u" (Scenario.ramp 2)]) H)).
Defined.

Lemma output_paths_NoDup_witness :
  let groups := [Scenario.voltage; Scenario.empty_group; Scenario.short] in
  has_sep (stem Scenario.x_path) = false
  /\ Forall (fun g => has_sep (group_name g) = false) groups
  /\ NoDup (List.map group_name groups)
  /\ NoDup (List.map (output_path Scenario.x_path) (List.filter has_rows groups)).
Proof.
  intros groups.
  assert (H1 : has_sep (stem Scenario.x_path) = false) by reflexivity.
  assert (H2 : Forall (fun g => has_sep (group_name g) = false) groups)
    by (repeat constructor).
  assert (H3 : NoDup (List.map group_name groups)).
  { apply NoDup_ListNoDup. repeat constructor; cbn; intros H;
      repeat (destruct H as [H|H]; [discriminate H|]); exact H. }
  exact (conj H1 (conj H2 (conj H3
           (output_paths_NoDup Scenario.x_path groups H1 H2 H3)))).
Defined.

(** * More on single-file conversion *)






(** ** Worlds without write failures *)

Lemma completed_split (done : list Group) (g : Group) (rest : list Group) e :
  Forall materializes done -> as_dataframe g = inl e ->
  completed (done ++ g :: rest) = done
  /\ first_corrupt (done ++ g :: rest) = Some e.
Proof.
  intros Hmat Hg. induction done as [|g' done IH]; cbn.
  - by rewrite Hg.
  - apply Forall_cons in Hmat as [[df Hdf] Hmat]. rewrite Hdf.
    destruct (IH Hmat) as [-> ->]. done.
Qed.

Lemma completed_all (gs : list Group) :
  Forall materializes gs -> completed gs = gs /\ first_corrupt gs = None.
Proof.
  induction gs as [|g gs IH]; intros Hmat; [done|]. cbn.
  apply Forall_cons in Hmat as [[df Hdf] Hmat]. rewrite Hdf.
  destruct (IH Hmat) as [-> ->]. done.
Qed.

(** Without write failures a conversion is a function of the container:
    it completes the groups before the first one that cannot be
    materialized. *)
Lemma fault_free_conversion (w : World) (source_file_path : Path) (s : State) :
  (forall t, fault w t = None) ->
  let run := convert_tdms_file w source_file_path s in
  match read_groups w source_file_path with
  | inl e =>
      fst run = (false, error_message source_file_path e, [])
      /\ files (snd run) = files s
  | inr [] =>
      fst run = (false, "No groups found in TDMS file", [])
      /\ files (snd run) = files s
  | inr groups =>
      fst run
      = match first_corrupt groups with
        | Some e =>
            (false, error_message source_file_path e,
             outputs source_file_path (completed groups))
        | None => (true, "", outputs source_file_path groups)
        end
      /\ files (snd run)
         = files_after source_file_path (completed groups) (files s)
  end.
Proof.
  intros Hfree run. subst run. rewrite convert_tdms_file_run. cbn zeta.
  destruct (read_groups w source_file_path) as [e|groups]; [done|].
  destruct groups as [|g0 groups0]; [done|].
  set (groups := g0 :: groups0) in *.
  destruct (for_each _ _ _) as [[e|[]] [s1 created]] eqn:Hloop;
    apply group_loop_run in Hloop; cbn [fst snd printed files].
  - destruct Hloop as (done & g & rest & j & Hsplit & Hmat & Hcreated & Hfiles
                       & _ & Hcase).
    cbn [files printed] in Hfiles. rewrite app_nil_l in Hcreated.
    destruct Hcase as [(Hg & -> & _)|(_ & Hf & _)];
      [|by rewrite Hfree in Hf].
    destruct (completed_split done g rest e Hmat Hg) as [Hc He].
    rewrite Hsplit, Hc, He, Hfiles, Hcreated.
    by erewrite partial_write_corrupt by eassumption.
  - destruct Hloop as (Hmat & Hcreated & Hfiles & _).
    cbn [files printed] in Hfiles. rewrite app_nil_l in Hcreated.
    destruct (completed_all groups Hmat) as [Hc He].
    rewrite Hc, He, Hfiles, Hcreated. done.
Qed.

(** X9.  In a world without write failures, converting a file a second
    time returns the same result and leaves the files as the first
    conversion left them: chunks are appended to a file the first chunk
    has started afresh, so a rerun does not duplicate rows. *)
Theorem rerun_is_idempotent (w : World) (source_file_path : Path) (s : State) :
  (forall t, fault w t = None) ->
  let first := convert_tdms_file w source_file_path s in
  let second := convert_tdms_file w source_file_path (snd first) in
  fst second = fst first /\ files (snd second) = files (snd first).
Proof.
  intros Hfree first second. subst first second.
  pose proof (fault_free_conversion w source_file_path s Hfree) as H1.
  pose proof (fault_free_conversion w source_file_path
                (snd (convert_tdms_file w source_file_path s)) Hfree) as H2.
  cbn zeta in H1, H2.
  destruct (read_groups w source_file_path) as [e|[|g0 groups0]].
  - destruct H1 as [R1 F1], H2 as [R2 F2]. split; [by rewrite R2, R1|exact F2].
  - destruct H1 as [R1 F1], H2 as [R2 F2]. split; [by rewrite R2, R1|exact F2].
  - destruct H1 as [R1 F1], H2 as [R2 F2]. split; [by rewrite R2, R1|].
    rewrite F2, F1. apply files_after_idempotent.
Qed.

Lemma rerun_is_idempotent_witness :
  let first := convert_tdms_file Scenario.world Scenario.x_path Scenario.start in
  let second := convert_tdms_file Scenario.world Scenario.x_path (snd first) in
  (forall t, fault Scenario.world t = None)
  /\ fst second = fst first /\ files (snd second) = files (snd first).
Proof.
  intros first second.
  assert (H : forall t, fault Scenario.world t = None) by reflexivity.
  exact (conj H (rerun_is_idempotent Scenario.world Scenario.x_path
                   Scenario.start H)).
Defined.

(** X10.  A container that has groups, none of them with rows, converts
    successfully with an empty created-files list: no write operation is
    performed and no file changes, unlike a container without groups,
    which is a failure. *)
Theorem all_groups_empty_is_success (w : World) (source_file_path : Path)
    (s : State) (groups : list Group) :
  read_groups w source_file_path = inr groups ->
  groups <> [] ->
  Forall (fun g => materializes g /\ has_rows g = false) groups ->
  let run := convert_tdms_file w source_file_path s in
  fst run = (true, "", [])
  /\ files (snd run) = files s
  /\ clock (snd run) = clock s.
Proof.
  intros Hread Hne Hall run. subst run.
  rewrite convert_tdms_file_run. cbn zeta. rewrite Hread.
  destruct groups as [|g0 groups0]; [done|].
  set (groups := g0 :: groups0) in *.
  assert (Hnone : List.filter has_rows groups = []).
  { clear -Hall. induction groups as [|g gs IH]; [done|].
    apply Forall_cons in Hall as [[_ Hg] Hall]. cbn. rewrite Hg. by apply IH. }
  assert (Hsame : forall fs : gmap Path (list Line),
            files_after source_file_path groups fs = fs).
  { clear -Hall. induction groups as [|g gs IH]; intros fs; [done|].
    apply Forall_cons in Hall as [[_ Hg] Hall]. cbn. rewrite Hg. by apply IH. }
  destruct (for_each _ _ _) as [[e|[]] [s1 created]] eqn:Hloop;
    apply group_loop_run in Hloop; cbn [fst snd printed files clock].
  - exfalso.
    destruct Hloop as (done & g & rest & j & Hsplit & _ & _ & _ & _ & Hcase).
    assert (Hg : g ∈ groups).
    { rewrite Hsplit. apply elem_of_app. right. by left. }
    rewrite Forall_forall in Hall. destruct (Hall g Hg) as [[df Hdf] Hrows].
    destruct Hcase as [(Hc & _)|(Hr & _)]; congruence.
  - destruct Hloop as (_ & Hcreated & Hfiles & Hclock & _).
    cbn [files clock printed] in *. unfold outputs, n_written in *.
    rewrite Hnone in *. cbn in Hcreated, Hclock.
    rewrite Hcreated, Hfiles, Hsame, Hclock, Nat.add_0_r. done.
Qed.

Lemma all_groups_empty_is_success_witness :
  let groups := [Scenario.empty_group; Cases.no_channels] in
  read_groups Cases.all_empty_world Scenario.x_path = inr groups
  /\ groups <> []
  /\ Forall (fun g => materializes g /\ has_rows g = false) groups
  /\ fst (convert_tdms_file Cases.all_empty_world Scenario.x_path Scenario.start)
     = (true, "", []).
Proof.
  intros groups.
  assert (H1 : read_groups Cases.all_empty_world Scenario.x_path = inr groups)
    by (vm_compute; reflexivity).
  assert (H2 : groups <> []) by discriminate.
  assert (H3 : Forall (fun g => materializes g /\ has_rows g = false) groups).
  { repeat constructor; eexists; reflexivity. }
  pose proof (all_groups_empty_is_success Cases.all_empty_world Scenario.x_path
                Scenario.start groups H1 H2 H3) as (Hres & _).
  exact (conj H1 (conj H2 (conj H3 Hres))).
Defined.

(** * More on the chunking *)

(** X11.  [array_split] raises ValueError exactly for a section count of
    zero; otherwise it returns that many sections, consecutive pieces that
    concatenate back to the array, whose lengths are the first
    [Ntotal mod Nsections] times [Ntotal / Nsections + 1] and then
    [Ntotal / Nsections]: no section is longer than the quotient plus
    one. *)
Theorem array_split_sections {A} (ary : list A) (Nsections : nat) :
  match array_split ary Nsections with
  | inl e => Nsections = 0 /\ exn_kind e = ValueError
  | inr sections =>
      0 < Nsections
      /\ List.length sections = Nsections
      /\ concat sections = ary
      /\ List.map (@List.length A) sections
         = replicate (List.length ary mod Nsections)
             (List.length ary / Nsections + 1)
           ++ replicate (Nsections - List.length ary mod Nsections)
                (List.length ary / Nsections)
      /\ Forall (fun sec => List.length ary / Nsections <= List.length sec
                            <= List.length ary / Nsections + 1) sections
  end.
Proof.
  destruct Nsections as [|n]; [by split|].
  rewrite array_split_chunks by lia.
  set (m := S n).
  assert (Hsum : sum_list (section_sizes (List.length ary) m) = List.length ary)
    by (apply section_sizes_sum; lia).
  assert (Hlens : List.map (@List.length A)
                    (chunks (section_sizes (List.length ary) m) ary)
                  = section_sizes (List.length ary) m)
    by (apply chunks_lengths; lia).
  split; [lia|].
  split; [rewrite chunks_length; apply section_sizes_length; lia|].
  split; [rewrite chunks_concat, Hsum; by apply take_ge|].
  split; [exact Hlens|].
  apply Forall_forall. intros sec Hsec.
  assert (Hin : List.length sec ∈ section_sizes (List.length ary) m).
  { rewrite <- Hlens. change (List.map (@List.length A)) with (fmap (M:=list) (@List.length A)).
    apply list_elem_of_fmap. by exists sec. }
  unfold section_sizes in Hin.
  apply elem_of_app in Hin as [Hin|Hin]; apply elem_of_replicate in Hin as [-> _]; lia.
Qed.

(** * More on the batch *)

Section QuietRuns.

Variable w : World.

Lemma quiet_step_refl (s : State) : quiet_step s s.
Proof. exists []. by rewrite app_nil_r. Qed.

Lemma quiet_step_silent (s s' : State) : stdout s' = stdout s -> quiet_step s s'.
Proof. intros H. exists []. by rewrite app_nil_r. Qed.

Lemma quiet_step_trans (s1 s2 s3 : State) :
  quiet_step s1 s2 -> quiet_step s2 s3 -> quiet_step s1 s3.
Proof.
  intros (e1 & H1 & F1) (e2 & H2 & F2). exists (e1 ++ e2).
  split; [by rewrite H2, H1, app_assoc|by apply Forall_app].
Qed.

Lemma Quiet_bind {S A B} (proj : S -> State) (m : M S A) (k : A -> M S B) :
  Quiet proj m -> (forall a, Quiet proj (k a)) -> Quiet proj (bind m k).
Proof.
  intros Hm Hk s. unfold bind. specialize (Hm s).
  destruct (m s) as [[e|a] s1]; [done|].
  eapply quiet_step_trans; [exact Hm|apply Hk].
Qed.

Lemma Quiet_lift {S A} (proj : S -> State) (r : Exn + A) : Quiet proj (lift r).
Proof. intros s. destruct r; apply quiet_step_refl. Qed.

Lemma Quiet_ret {S A} (proj : S -> State) (a : A) : Quiet proj (ret a).
Proof. intros s. apply quiet_step_refl. Qed.

Lemma Quiet_for_each {S A} (proj : S -> State) (xs : list A)
    (body : A -> M S unit) :
  (forall x, Quiet proj (body x)) -> Quiet proj (for_each xs body).
Proof.
  intros Hbody. induction xs as [|x xs IH]; [apply Quiet_ret|].
  cbn. apply Quiet_bind; [apply Hbody|by intros _].
Qed.

Lemma Quiet_print (e : Event) : is_converting e = false -> Quiet id (print e).
Proof. intros He s. exists [e]. split; [done|by constructor]. Qed.

Lemma Quiet_to_csv df path header mode : Quiet id (to_csv w df path header mode).
Proof.
  intros s. unfold to_csv. by destruct (fault w (clock s)); apply quiet_step_silent.
Qed.

Lemma Quiet_io {A} (m : M State A) : Quiet id m -> Quiet fst (io m).
Proof.
  intros Hm fr. unfold io. specialize (Hm (fst fr)).
  by destruct (m (fst fr)).
Qed.

Lemma Quiet_write_segments df path segments :
  Quiet id (write_segments w df path segments).
Proof.
  apply Quiet_for_each. intros [count chunk]. unfold write_chunk. cbn [fst snd].
  destruct (Nat.eqb count 0);
    (apply Quiet_bind; [apply Quiet_lift|intros ?; apply Quiet_to_csv]).
Qed.

Lemma Quiet_convert_group p n entry : Quiet fst (convert_group w p n entry).
Proof.
  unfold convert_group.
  apply Quiet_bind; [by apply Quiet_io, Quiet_print|intros _].
  apply Quiet_bind; [apply Quiet_lift|intros df].
  destruct (empty df); [by apply Quiet_io, Quiet_print|].
  apply Quiet_bind; [apply Quiet_lift|intros segments].
  apply Quiet_bind; [apply Quiet_io, Quiet_write_segments|intros _].
  apply Quiet_bind; [intros fr; apply quiet_step_refl|intros _].
  by apply Quiet_io, Quiet_print.
Qed.

Lemma Quiet_convert_body p : Quiet fst (convert_body w p).
Proof.
  unfold convert_body.
  apply Quiet_bind; [by apply Quiet_io, Quiet_print|intros _].
  apply Quiet_bind.
  { apply Quiet_io. unfold TdmsFile_open.
    destruct (stat w (str p)) as [[c|es]|];
      [apply Quiet_lift|intros s; apply quiet_step_refl..]. }
  intros tdms_file. apply Quiet_bind; [apply Quiet_lift|intros groups].
  destruct groups as [|g groups]; [apply Quiet_ret|].
  apply Quiet_bind; [apply Quiet_for_each, Quiet_convert_group|intros _].
  apply Quiet_bind; [intros fr; apply quiet_step_refl|intros ?; apply Quiet_ret].
Qed.

Lemma convert_tdms_file_quiet p s :
  quiet_step s (snd (convert_tdms_file w p s)).
Proof.
  unfold convert_tdms_file.
  pose proof (Quiet_convert_body p (s, [])) as H. cbn [fst] in H.
  destruct (convert_body w p (s, [])) as [[e|r] fr]; cbn [fst snd] in *; [|done].
  eapply quiet_step_trans; [exact H|].
  eexists [_]. split; [reflexivity|by constructor].
Qed.

Lemma filter_quiet (evs : list Event) :
  Forall (fun e => is_converting e = false) evs ->
  List.filter is_converting evs = [].
Proof.
  induction 1 as [|e evs He _ IH]; [done|]. cbn. by rewrite He.
Qed.

Lemma batch_loop_progress total_files entries : forall c s,
  List.filter is_converting (stdout (snd (batch_loop w total_files entries c s)))
  = List.filter is_converting (stdout s)
    ++ List.map (fun e => EvConverting (fst e) total_files (snd e)) entries.
Proof.
  induction entries as [|[file_idx tdms_file] rest IH]; intros c s.
  - cbn. by rewrite app_nil_r.
  - cbn [batch_loop List.map fst snd]. rewrite bind_print. unfold bind at 1.
    pose proof (convert_tdms_file_quiet tdms_file
                  (printed (EvConverting file_idx total_files tdms_file) s))
      as (evs & Hout & Hquiet).
    destruct (convert_tdms_file w tdms_file _)
      as [[[success error_msg] created_files] s1].
    cbn [snd stdout printed] in Hout.
    destruct success; rewrite bind_print, IH; cbn [stdout printed];
      rewrite Hout, !List.filter_app, (filter_quiet evs Hquiet);
      cbn [List.filter is_converting app];
      rewrite ?app_nil_r, <- ?app_assoc; done.
Qed.

End QuietRuns.

(** X12.  A batch over a non-empty list of discovered files prints one
    progress line per file, in discovery order, numbered from 1 with the
    total, and nothing else prints such a line: every file is attempted
    exactly once, whatever the conversions before it returned. *)
Theorem batch_attempts_every_file (w : World) (root_directory : string)
    (s : State) (tdms_files : list Path) :
  find_tdms_files w root_directory = inr tdms_files ->
  tdms_files <> [] ->
  List.filter is_converting
    (stdout (snd (batch_convert_tdms_files w root_directory s)))
  = List.filter is_converting (stdout s)
    ++ List.map (fun e => EvConverting (fst e) (List.length tdms_files) (snd e))
         (enumerate tdms_files 1).
Proof.
  intros Hfind Hne. unfold batch_convert_tdms_files.
  rewrite bind_print. unfold try_except, bind at 1. rewrite Hfind. cbn [lift ret].
  destruct tdms_files as [|f rest]; [done|].
  set (files0 := f :: rest). rewrite bind_print. unfold bind at 1.
  pose proof (batch_loop_progress w (List.length files0) (enumerate files0 1)
                (mkCounters 0 0 0)
                (printed (EvFound (List.length files0))
                   (printed (EvBanner root_directory) s))) as Hloop.
  destruct (batch_loop_run w (List.length files0) (enumerate files0 1)
              (mkCounters 0 0 0)
              (printed (EvFound (List.length files0))
                 (printed (EvBanner root_directory) s))) as [s_loop Hrun].
  rewrite Hrun in Hloop |- *. cbn [snd] in Hloop.
  rewrite !bind_print. cbn [ret snd stdout printed].
  rewrite !List.filter_app, Hloop. cbn [stdout printed].
  rewrite !List.filter_app. cbn. by rewrite !app_nil_r.
Qed.

Lemma batch_attempts_every_file_witness :
  let tdms_files := [Scenario.x_path; ["/"; "data"; "b"; "y.tdms"]] in
  find_tdms_files Scenario.world "/data" = inr tdms_files
  /\ tdms_files <> []
  /\ List.filter is_converting
       (stdout (snd (batch_convert_tdms_files Scenario.world "/data"
                       Scenario.start)))
     = List.filter is_converting (stdout Scenario.start)
       ++ List.map (fun e => EvConverting (fst e) (List.length tdms_files) (snd e))
            (enumerate tdms_files 1).
Proof.
  intros tdms_files.
  assert (H1 : find_tdms_files Scenario.world "/data" = inr tdms_files)
    by (vm_compute; reflexivity).
  assert (H2 : tdms_files <> []) by discriminate.
  exact (conj H1 (conj H2
           (batch_attempts_every_file Scenario.world "/data" Scenario.start
              tdms_files H1 H2))).
Defined.

(** * The verdict of a batch *)

Lemma filter_none_length {A} (f : A -> bool) (l : list A) :
  List.length (List.filter f l) = 0 <-> Forall (fun x => f x = false) l.
Proof.
  induction l as [|x l IH]; cbn; [by split; [constructor|]|].
  destruct (f x) eqn:Hx; cbn.
  - split; [lia|]. intros H. apply Forall_cons in H as [H _]. congruence.
  - rewrite IH. split; [by constructor|]. by intros [_ ?]%Forall_cons.
Qed.

(** X13.  The last line of a batch over a non-empty list of files is its
    verdict: all-converted exactly when every conversion succeeded,
    none-converted exactly when every conversion failed, and otherwise the
    numbers of successes and failures, both positive. *)
Theorem batch_verdict (w : World) (root_directory : string) (s : State)
    (tdms_files : list Path) :
  find_tdms_files w root_directory = inr tdms_files ->
  tdms_files <> [] ->
  let results :=
    conversion_results w (List.length tdms_files) (enumerate tdms_files 1)
      (printed (EvFound (List.length tdms_files))
         (printed (EvBanner root_directory) s)) in
  exists log v,
    stdout (snd (batch_convert_tdms_files w root_directory s))
    = log ++ [EvVerdict v]
    /\ (v = AllConverted <-> Forall (fun r => succeeded r = true) results)
    /\ (v = NoneConverted <-> Forall (fun r => succeeded r = false) results)
    /\ (forall ok failed, v = SomeFailed ok failed ->
          0 < ok /\ 0 < failed
          /\ ok = List.length (List.filter succeeded results)
          /\ ok + failed = List.length tdms_files).
Proof.
  intros Hfind Hne results.
  pose proof (batch_convert_run w root_directory s) as Hrun.
  cbn zeta in Hrun. rewrite Hfind in Hrun.
  destruct tdms_files as [|f rest]; [done|].
  set (files0 := f :: rest) in *.
  destruct Hrun as [s_loop ->]. cbn [snd stdout]. fold results.
  set (c := fold_results (mkCounters 0 0 0) results).
  exists (stdout s_loop
          ++ [EvSummary (List.length files0) (successful_conversions c)
                (failed_conversions c) (total_csv_files_created c)]),
         (verdict c).
  split; [by rewrite <- app_assoc|].
  assert (Hlen : List.length results = List.length files0).
  { unfold results. by rewrite conversion_results_length, enumerate_length. }
  pose proof (filter_partition_length succeeded results) as Hpart.
  pose proof (filter_none_length succeeded results) as Hnone.
  pose proof (filter_none_length (fun r => negb (succeeded r)) results) as Hall.
  assert (Hall' : Forall (fun r => negb (succeeded r) = false) results
                  <-> Forall (fun r => succeeded r = true) results).
  { split; intros H; (eapply Forall_impl; [exact H|]); cbn;
      intros r; by destruct (succeeded r). }
  unfold verdict, c. cbn [fold_results successful_conversions failed_conversions].
  cbn [plus].
  set (ok := List.length (List.filter succeeded results)) in *.
  set (bad := List.length (List.filter (fun r => negb (succeeded r)) results)) in *.
  assert (Hpos : 0 < List.length results) by (rewrite Hlen; cbn; lia).
  destruct (Nat.eqb_spec bad 0) as [Hbad|Hbad].
  - split; [split; [intros _; by apply Hall', Hall|done]|].
    split; [|done]. split; [done|].
    intros Hnoneok. apply Hnone in Hnoneok. lia.
  - destruct (Nat.ltb_spec 0 ok) as [Hok|Hok].
    + split; [split; [done|intros H; apply Hall', Hall in H; lia]|].
      split; [split; [done|intros H; apply Hnone in H; lia]|].
      intros ok' failed' [= <- <-]. repeat split; try lia.
    + split; [split; [done|intros H; apply Hall', Hall in H; lia]|].
      split; [|done]. split; [|done]. intros _. apply Hnone. lia.
Qed.

Lemma batch_verdict_witness :
  let tdms_files := [Scenario.x_path; ["/"; "data"; "b"; "y.tdms"]] in
  find_tdms_files Scenario.world "/data" = inr tdms_files
  /\ tdms_files <> []
  /\ exists log v,
       stdout (snd (batch_convert_tdms_files Scenario.world "/data"
                      Scenario.start))
       = log ++ [EvVerdict v].
Proof.
  intros tdms_files.
  assert (H1 : find_tdms_files Scenario.world "/data" = inr tdms_files)
    by (vm_compute; reflexivity).
  assert (H2 : tdms_files <> []) by discriminate.
  destruct (batch_verdict Scenario.world "/data" Scenario.start tdms_files H1 H2)
    as (log & v & Hlog & _).
  exact (conj H1 (conj H2 (ex_intro _ log (ex_intro _ v Hlog)))).
Defined.

(** * More on discovery *)

Lemma find_tdms_files_spec_witness :
  stat Scenario.world (str (PurePath "/data")) = Some Scenario.tree
  /\ exists tdms_files,
       find_tdms_files Scenario.world "/data" = inr tdms_files
       /\ NoDup tdms_files
       /\ Scenario.x_path ∈ tdms_files.
Proof.
  assert (H : stat Scenario.world (str (PurePath "/data")) = Some Scenario.tree)
    by (vm_compute; reflexivity).
  destruct (find_tdms_files_spec Scenario.world "/data" _ H)
    as (tdms_files & Hfind & Hnd & Hspec).
  split; [exact H|]. exists tdms_files. split; [exact Hfind|]. split; [exact Hnd|].
  apply Hspec. exists ["a"], "x.tdms", (File (inr Scenario.x_tdms)).
  split; [reflexivity|]. split; [|reflexivity].
  eapply reaches_step; [left|]. eapply reaches_step; [left|]. constructor.
Defined.

Lemma is_root_not_tdms (nm : string) :
  endswith nm ".tdms" = true -> is_root nm = false.
Proof.
  intros H. unfold is_root.
  destruct (String.eqb_spec nm "/") as [->|_]; [done|].
  destruct (String.eqb_spec nm "//") as [->|_]; done.
Qed.

(** X2.  Every path discovery returns has a name that ends with ".tdms",
    and its parent is the root or a directory below the root. *)
Theorem discovered_paths_named (w : World) (root_directory : string)
    (tdms_files : list Path) (p : Path) :
  find_tdms_files w root_directory = inr tdms_files ->
  p ∈ tdms_files ->
  fnmatch_tdms (name p) = true
  /\ exists rel, parent p = PurePath root_directory ++ rel.
Proof.
  unfold find_tdms_files, rglob.
  destruct (Path_exists w _); [|done]. unfold Path_is_dir.
  destruct (stat w _) as [n|]; [|done].
  destruct (is_dir n); [|done]. cbn [negb]. intros [= <-] Hp.
  apply rglob_node_spec in Hp as (rel & nm & m & -> & _ & Hmatch).
  pose proof (is_root_not_tdms nm Hmatch) as Hroot.
  rewrite app_assoc. rewrite name_snoc, parent_snoc by done.
  split; [done|]. by exists rel.
Qed.

Lemma discovered_paths_named_witness :
  let tdms_files := [Scenario.x_path; ["/"; "data"; "b"; "y.tdms"]] in
  find_tdms_files Scenario.world "/data" = inr tdms_files
  /\ Scenario.x_path ∈ tdms_files
  /\ fnmatch_tdms (name Scenario.x_path) = true
  /\ exists rel, parent Scenario.x_path = PurePath "/data" ++ rel.
Proof.
  intros tdms_files.
  assert (H1 : find_tdms_files Scenario.world "/data" = inr tdms_files)
    by (vm_compute; reflexivity).
  assert (H2 : Scenario.x_path ∈ tdms_files) by left.
  destruct (discovered_paths_named Scenario.world "/data" tdms_files
              Scenario.x_path H1 H2) as [Ha Hb].
  exact (conj H1 (conj H2 (conj Ha Hb))).
Defined.

(** * More on the command line *)

(** X14.  For an argument that is already in the form pathlib prints it,
    the checks of the entry point and those of discovery ask the same
    question: the fatal branch of the batch cannot be reached, and the
    process exits with status 0 exactly when the argument is a
    directory. *)
Theorem main_normalized_argument (w : World) (prog root_directory : string)
    (s : State) :
  str (PurePath root_directory) = root_directory ->
  (process_status (fst (main w [prog; root_directory] s)) = 0
   <-> os_path_isdir w root_directory = true)
  /\ (os_path_isdir w root_directory = true ->
      exists tdms_files, find_tdms_files w root_directory = inr tdms_files).
Proof.
  intros Hnorm.
  assert (Hfind : os_path_isdir w root_directory = true ->
            exists tdms_files, find_tdms_files w root_directory = inr tdms_files).
  { unfold os_path_isdir, find_tdms_files, Path_exists, Path_is_dir.
    rewrite Hnorm. destruct (stat w root_directory) as [n|]; [|done].
    intros ->. cbn. by eexists. }
  split; [|exact Hfind].
  unfold main. cbn [List.length Nat.eqb negb nth].
  unfold os_path_exists. unfold os_path_isdir in *.
  destruct (stat w root_directory) as [n|] eqn:Hstat; cbn [negb]; [|done].
  destruct (is_dir n) eqn:Hdir; cbn [negb]; [|done].
  destruct (Hfind eq_refl) as [tdms_files Hfiles].
  pose proof (batch_convert_run w root_directory s) as Hrun.
  cbn zeta in Hrun. rewrite Hfiles in Hrun.
  destruct tdms_files as [|f rest]; [by rewrite Hrun|].
  destruct Hrun as [s_loop ->]. done.
Qed.

Lemma main_normalized_argument_witness :
  str (PurePath "/data") = "/data"
  /\ (process_status
        (fst (main Scenario.world ["batches.py"; "/data"] Scenario.start)) = 0
      <-> os_path_isdir Scenario.world "/data" = true).
Proof.
  assert (H : str (PurePath "/data") = "/data") by reflexivity.
  exact (conj H (proj1 (main_normalized_argument Scenario.world "batches.py"
                          "/data" Scenario.start H))).
Defined.
